(** * VentilationSystem: the control rules, the settings store and the run loop

    A shallow embedding of [src/ventilation.py].  Python floats are Rocq's
    primitive binary64 floats, Python ints are [Z], the settings dictionary
    is a finite map from strings to JSON values, and the methods of
    [VentilationSystem] are functions in a small state-and-exception monad
    over the object's fields.  The [logger] calls only write to the log
    handlers and are left out. *)

From Stdlib Require Import ZArith Floats Lia Bool.
From stdpp Require Import gmap strings.

Set Warnings "-register-all".

(** ** Python values *)

(** The values [json.load] can produce, which are also the values the
    settings dictionary can hold. *)
Inductive pyval :=
  | PyNone
  | PyBool (b : bool)
  | PyInt (z : Z)
  | PyFloat (f : float)
  | PyStr (s : string)
  | PyList (l : list pyval)
  | PyDict (d : gmap string pyval).

(** The two numeric types a sensor field holds: [random.randint] gives an
    [int], everything else in [read_sensors] is a [float]. *)
Inductive number :=
  | NInt (z : Z)
  | NFloat (f : float).

Inductive exn :=
  | FileNotFoundError
  | JSONDecodeError
  | KeyError (k : string)
  | TypeError
  | AttributeError
  | OverflowError
  | KeyboardInterrupt.

Inductive result (A : Type) :=
  | Return (a : A)
  | Raise (e : exn).
Arguments Return {A} a.
Arguments Raise {A} e.

Definition Z_of_bool (b : bool) : Z := if b then 1%Z else 0%Z.

(** [bool] is a subclass of [int]; the other JSON types are not numbers. *)
Definition as_number (v : pyval) : option number :=
  match v with
  | PyBool b => Some (NInt (Z_of_bool b))
  | PyInt z => Some (NInt z)
  | PyFloat f => Some (NFloat f)
  | _ => None
  end.

(** [float(n)] for an int: correctly rounded, [OverflowError] when the
    rounded value does not fit a double. *)
Definition float_of_Z (z : Z) : result float :=
  match binary_normalize prec emax z 0 false with
  | S754_infinity _ => Raise OverflowError
  | sf => Return (SF2Prim sf)
  end.

(** The float an operand is converted to when the other operand of [+] or
    [-] is a float. *)
Definition py_float (v : pyval) : result float :=
  match as_number v with
  | Some (NFloat f) => Return f
  | Some (NInt z) => float_of_Z z
  | None => Raise TypeError
  end.

Definition py_add_float (v : pyval) (c : float) : result float :=
  match py_float v with
  | Return t => Return (t + c)%float
  | Raise e => Raise e
  end.

Definition py_sub_float (v : pyval) (c : float) : result float :=
  match py_float v with
  | Return t => Return (t - c)%float
  | Raise e => Raise e
  end.

(** Python compares a float with an int exactly, without converting the
    int.  [SF_compare_Z f z] is that comparison; [None] is a NaN. *)
Definition SF_compare_Z (f : spec_float) (z : Z) : option comparison :=
  match f with
  | S754_nan => None
  | S754_infinity s => Some (if s then Lt else Gt)
  | S754_zero _ => Some (0 ?= z)%Z
  | S754_finite s m e =>
      Some match e with
           | Zneg p => (cond_Zopp s (Zpos m) ?= z * 2 ^ Zpos p)%Z
           | _ => (cond_Zopp s (Zpos m) * 2 ^ e ?= z)%Z
           end
  end.

Definition number_ltb (a b : number) : bool :=
  match a, b with
  | NInt x, NInt y => (x <? y)%Z
  | NFloat x, NFloat y => (x <? y)%float
  | NFloat x, NInt y =>
      match SF_compare_Z (Prim2SF x) y with Some Lt => true | _ => false end
  | NInt x, NFloat y =>
      match SF_compare_Z (Prim2SF y) x with Some Gt => true | _ => false end
  end.

(** [a < v] and [a > v] for a number [a] and a settings value [v]. *)
Definition py_lt (a : number) (v : pyval) : result bool :=
  match as_number v with
  | Some b => Return (number_ltb a b)
  | None => Raise TypeError
  end.

Definition py_gt (a : number) (v : pyval) : result bool :=
  match as_number v with
  | Some b => Return (number_ltb b a)
  | None => Raise TypeError
  end.

(** Truth value of a settings value, as [if] and [and] test it. *)
Definition py_truthy (v : pyval) : bool :=
  match v with
  | PyNone => false
  | PyBool b => b
  | PyInt z => negb (z =? 0)%Z
  | PyFloat f => negb (f =? 0)%float
  | PyStr s => match s with EmptyString => false | _ => true end
  | PyList l => match l with [] => false | _ => true end
  | PyDict d => negb (bool_decide (d = ∅))
  end.

(** [v[k]] for a string key. *)
Definition py_getitem (v : pyval) (k : string) : result pyval :=
  match v with
  | PyDict d =>
      match d !! k with
      | Some x => Return x
      | None => Raise (KeyError k)
      end
  | _ => Raise TypeError
  end.

(** ** The data classes *)

Record SensorData := {
  temperature : float;
  humidity : float;
  co2 : number;
  airflow : float
}.

Record SystemState := {
  heating : bool;
  cooling : bool;
  humidifier : bool;
  fan_speed : Z;
  recuperator : bool
}.

(** [SystemState()]: the dataclass defaults. *)
Definition SystemState_default : SystemState :=
  {| heating := false; cooling := false; humidifier := false;
     fan_speed := 0; recuperator := false |}.

Record VentilationSystem := {
  settings : pyval;
  state : SystemState;
  sensor_data : SensorData;
  running : bool;
  simulate_sensors : bool
}.

Definition set_settings (v : pyval) (self : VentilationSystem) :=
  {| settings := v; state := state self; sensor_data := sensor_data self;
     running := running self; simulate_sensors := simulate_sensors self |}.

Definition set_state (st : SystemState) (self : VentilationSystem) :=
  {| settings := settings self; state := st; sensor_data := sensor_data self;
     running := running self; simulate_sensors := simulate_sensors self |}.

Definition set_sensor_data (sd : SensorData) (self : VentilationSystem) :=
  {| settings := settings self; state := state self; sensor_data := sd;
     running := running self; simulate_sensors := simulate_sensors self |}.

Definition with_heating (b : bool) (st : SystemState) :=
  {| heating := b; cooling := cooling st; humidifier := humidifier st;
     fan_speed := fan_speed st; recuperator := recuperator st |}.

Definition with_cooling (b : bool) (st : SystemState) :=
  {| heating := heating st; cooling := b; humidifier := humidifier st;
     fan_speed := fan_speed st; recuperator := recuperator st |}.

Definition with_humidifier (b : bool) (st : SystemState) :=
  {| heating := heating st; cooling := cooling st; humidifier := b;
     fan_speed := fan_speed st; recuperator := recuperator st |}.

Definition with_fan_speed (n : Z) (st : SystemState) :=
  {| heating := heating st; cooling := cooling st; humidifier := humidifier st;
     fan_speed := n; recuperator := recuperator st |}.

Definition with_recuperator (b : bool) (st : SystemState) :=
  {| heating := heating st; cooling := cooling st; humidifier := humidifier st;
     fan_speed := fan_speed st; recuperator := b |}.

(** ** The monad of the methods: the object's fields and an exception *)

Definition M (A : Type) : Type :=
  VentilationSystem → result A * VentilationSystem.

Definition ret {A} (a : A) : M A := λ self, (Return a, self).

Definition bind {A B} (m : M A) (k : A → M B) : M B :=
  λ self,
    match m self with
    | (Return a, self') => k a self'
    | (Raise e, self') => (Raise e, self')
    end.

Definition lift {A} (r : result A) : M A := λ self, (r, self).

Definition gets {A} (f : VentilationSystem → A) : M A :=
  λ self, (Return (f self), self).

Definition modify (f : VentilationSystem → VentilationSystem) : M unit :=
  λ self, (Return tt, f self).

Declare Scope py_scope.
Delimit Scope py_scope with py.
Notation "'let*' x := m 'in' k" := (bind m (λ x, k))
  (at level 10, x name, m at level 100, k at level 200) : py_scope.
Notation "m ;; k" := (bind m (λ _, k))
  (at level 100, k at level 200, right associativity) : py_scope.

(** [self.settings[k]] *)
Definition setting (k : string) : M pyval :=
  λ self, (py_getitem (settings self) k, self).

(** [self.state.<field> = ...] *)
Definition assign_state (f : SystemState → SystemState) : M unit :=
  modify (λ self, set_state (f (state self)) self).

(** ** Sensors *)

(** The four numbers [random] hands to one simulated reading. *)
Record draws := {
  uniform_temperature : float;   (* random.uniform(-2, 5) *)
  uniform_humidity : float;      (* random.uniform(-10, 10) *)
  randint_co2 : Z;               (* random.randint(-100, 300) *)
  uniform_airflow : float        (* random.uniform(-5, 10) *)
}.

Definition read_sensors (rnd : draws) (self : VentilationSystem) : SensorData :=
  if simulate_sensors self then
    {| temperature := 20.0 + uniform_temperature rnd;
       humidity := 45.0 + uniform_humidity rnd;
       co2 := NInt (600 + randint_co2 rnd);
       airflow := 40.0 + uniform_airflow rnd |}
  else
    {| temperature := 20.0; humidity := 50.0;
       co2 := NFloat 400.0; airflow := 40.0 |}.

(** ** The five control rules *)

Open Scope py_scope.

Definition control_heating (temp : float) : M unit :=
  let* target := setting "target_temp" in
  let* low := lift (py_sub_float target 1.0) in
  if (temp <? low)%float then
    assign_state (with_heating true)
  else
    let* high := lift (py_add_float target 0.5) in
    if (high <? temp)%float then
      assign_state (with_heating false)
    else ret tt.

Definition control_cooling (temp : float) : M unit :=
  let* target := setting "target_temp" in
  let* max_temp := lift (py_add_float target 3.0) in
  if (max_temp <? temp)%float then
    assign_state (with_cooling true)
  else
    assign_state (with_cooling false).

Definition control_humidifier (humidity : float) : M unit :=
  let* target := setting "target_humidity" in
  let* low := lift (py_sub_float target 5.0) in
  if (humidity <? low)%float then
    assign_state (with_humidifier true)
  else
    let* high := lift (py_add_float target 3.0) in
    if (high <? humidity)%float then
      assign_state (with_humidifier false)
    else ret tt.

(** [co2 > co2_limit or airflow < min_airflow]: the right operand is only
    evaluated when the left one is false. *)
Definition control_fan (co2 : number) (airflow : float) : M unit :=
  let* co2_limit := setting "co2_limit" in
  let* min_airflow := setting "min_airflow" in
  let* high_co2 := lift (py_gt co2 co2_limit) in
  let* boost :=
    if high_co2 then ret true else lift (py_lt (NFloat airflow) min_airflow) in
  if boost then
    assign_state (with_fan_speed 100)
  else
    assign_state (with_fan_speed 50).

(** [self.settings[...] and temp > 5.0]: the comparison of two floats
    cannot raise, so only the truth value of the conjunction matters. *)
Definition control_recuperator (temp : float) : M unit :=
  let* enabled := setting "recuperator_enabled" in
  if py_truthy enabled && (5.0 <? temp)%float then
    assign_state (with_recuperator true)
  else
    assign_state (with_recuperator false).

Definition update_system (rnd : draws) : M unit :=
  let* reading := gets (read_sensors rnd) in
  modify (set_sensor_data reading);;
  let temp := temperature reading in
  let humidity := humidity reading in
  let co2 := co2 reading in
  let airflow := airflow reading in
  control_heating temp;;
  control_cooling temp;;
  control_humidifier humidity;;
  control_fan co2 airflow;;
  control_recuperator temp.

Definition cleanup : M unit :=
  modify (set_state SystemState_default).

(** ** The settings file and the web interface *)

(** [settings.json] is read with [json.load] and written with [json.dump].
    The [json] module is not part of the program: the text of a file is a
    type [text], and the two functions are parameters.  [json_loads]
    returns [None] where [json.load] raises [JSONDecodeError]. *)
Section Storage.

Variable text : Type.
Variable json_dumps : pyval → text.
Variable json_loads : text → option pyval.

(** The part of the file system the program touches: [None] when
    [settings.json] does not exist. *)
Record world := { settings_json : option text }.

Definition default_dict : gmap string pyval :=
  <["target_temp" := PyFloat 22.0]>
  (<["target_humidity" := PyFloat 50.0]>
  (<["co2_limit" := PyInt 800]>
  (<["min_airflow" := PyFloat 30.0]>
  (<["recuperator_enabled" := PyBool true]> ∅)))).

Definition default_settings : pyval := PyDict default_dict.

(** Only [FileNotFoundError] is caught. *)
Definition load_settings (w : world) : result pyval :=
  match settings_json w with
  | Some contents =>
      match json_loads contents with
      | Some v => Return v
      | None => Raise JSONDecodeError
      end
  | None => Return default_settings
  end.

(** [open(..., "w")] creates or truncates the file. *)
Definition save_settings (self : VentilationSystem) (w : world) : world :=
  {| settings_json := Some (json_dumps (settings self)) |}.

(** [VentilationSystem()] *)
Definition init (w : world) : result VentilationSystem :=
  match load_settings w with
  | Return v =>
      Return {| settings := v;
                state := SystemState_default;
                sensor_data := {| temperature := 0.0; humidity := 0.0;
                                  co2 := NFloat 0.0; airflow := 0.0 |};
                running := true;
                simulate_sensors := true |}
  | Raise e => Raise e
  end.

(** [dict.update]: every key of [data] is set, the other keys stay. *)
Definition dict_update (data : gmap string pyval) (v : pyval) : result pyval :=
  match v with
  | PyDict d => Return (PyDict (data ∪ d))
  | _ => Raise AttributeError
  end.

(** [jsonify({"status": "ok"})] *)
Definition ok_response : pyval := PyDict {["status" := PyStr "ok"]}.

(** The handler of [POST /settings], for a request whose JSON body is an
    object [data]; the result is the JSON document it answers with. *)
Definition update_settings (data : gmap string pyval)
    (self : VentilationSystem) (w : world)
    : result pyval * VentilationSystem * world :=
  match dict_update data (settings self) with
  | Return v =>
      let self' := set_settings v self in
      (Return ok_response, self', save_settings self' w)
  | Raise e => (Raise e, self, w)
  end.

(** *** The main loop *)

(** What can happen while [run] is in its loop: an iteration runs to its
    end, the user interrupts the process while the loop sleeps between two
    iterations, or the web thread serves a settings request there. *)
Inductive event :=
  | Iteration (rnd : draws)
  | Interrupt
  | Post (data : gmap string pyval).

(** The [while self.running] loop over a finite script of events.  The
    first component is [None] when the script ends with the loop still
    going, and otherwise how the loop was left. *)
Fixpoint loop (script : list event) (self : VentilationSystem) (w : world)
    : option (result unit) * VentilationSystem * world :=
  if running self then
    match script with
    | [] => (None, self, w)
    | Iteration rnd :: script' =>
        match update_system rnd self with
        | (Return _, self') => loop script' self' w
        | (Raise e, self') => (Some (Raise e), self', w)
        end
    | Interrupt :: _ => (Some (Raise KeyboardInterrupt), self, w)
    | Post data :: script' =>
        let '(_, self', w') := update_settings data self w in
        loop script' self' w'
    end
  else (Some (Return tt), self, w).

(** [try ... except KeyboardInterrupt ... finally: self.cleanup()] *)
Definition run (script : list event) (self : VentilationSystem) (w : world)
    : option (result unit) * VentilationSystem * world :=
  match loop script self w with
  | (None, self', w') => (None, self', w')
  | (Some r, self', w') =>
      let r' := match r with
                | Raise KeyboardInterrupt => Return tt
                | _ => r
                end in
      (Some r', snd (cleanup self'), w')
  end.

End Storage.

Arguments settings_json {text} w.
Arguments Build_world {text} _.
Arguments load_settings {text} json_loads w.
Arguments save_settings {text} json_dumps self w.
Arguments init {text} json_loads w.
Arguments update_settings {text} json_dumps data self w.
Arguments loop {text} json_dumps script self w.
Arguments run {text} json_dumps script self w.

(** *** A codec to run the storage functions with

    A text is identified with what [json.load] makes of it: the document
    of a value, or something that does not parse. *)
Inductive document :=
  | Document (v : pyval)
  | Malformed.

Definition document_dumps (v : pyval) : document := Document v.

Definition document_loads (t : document) : option pyval :=
  match t with
  | Document v => Some v
  | Malformed => None
  end.

(** The object right after construction when there is no settings file. *)
Definition fresh_system : VentilationSystem :=
  {| settings := default_settings;
     state := SystemState_default;
     sensor_data := {| temperature := 0.0; humidity := 0.0;
                       co2 := NFloat 0.0; airflow := 0.0 |};
     running := true;
     simulate_sensors := true |}.

(** The five settings are there and have the types the rules need. *)
Definition settings_ok (v : pyval) : bool :=
  match py_getitem v "target_temp", py_getitem v "target_humidity",
        py_getitem v "co2_limit", py_getitem v "min_airflow",
        py_getitem v "recuperator_enabled" with
  | Return tt_, Return th, Return cl, Return ma, Return _ =>
      match py_float tt_, py_float th, as_number cl, as_number ma with
      | Return _, Return _, Some _, Some _ => true
      | _, _, _, _ => false
      end
  | _, _, _, _, _ => false
  end.

(** ** A model of binary64 rounding

    The thresholds of the rules are sums and differences of floats.  To
    compare them, a float is measured in units of [2^-1074], the smallest
    positive double, so that every finite double is an integer number of
    units and the exact sum of two doubles is one too. *)
Section RoundingModel.
Local Open Scope Z_scope.

(** Dropping the low [k] bits of [M] ([1 <= k]), to nearest, ties to even. *)
Definition rne_shift (k M : Z) : Z :=
  let q := M / 2 ^ k in
  if Z.testbit M (k - 1) && (negb (M mod 2 ^ (k - 1) =? 0) || Z.odd q)
  then q + 1 else q.

(** The last step of [binary_round_aux]: zero, a finite float, or an
    infinity when the exponent is too large. *)
Definition make_float (s : bool) (m e : Z) : spec_float :=
  match m with
  | Z0 => S754_zero s
  | Zpos p => if e <=? emax - prec then S754_finite s p e else S754_infinity s
  | Zneg _ => S754_nan
  end.

(** What [binary_round] computes, without the shift records. *)
Definition round_model (s : bool) (mx : positive) (ex : Z) : spec_float :=
  let e := fexp prec emax (Zpos (digits2_pos mx) + ex) in
  if e <=? ex then make_float s (Zpos mx * 2 ^ (ex - e)) e
  else
    let q := rne_shift (e - ex) (Zpos mx) in
    if q =? 2 ^ 53 then make_float s (2 ^ 52) (e + 1) else make_float s q e.

(** [2^1024] in units: the first value that is too large for a double. *)
Definition overflow_units : Z := 2 ^ 2098.

(** The value of a float in units; an infinity counts as [2^1024]. *)
Definition SFunits (f : spec_float) : Z :=
  match f with
  | S754_zero _ => 0
  | S754_infinity s => cond_Zopp s overflow_units
  | S754_nan => 0
  | S754_finite s m e => cond_Zopp s (Zpos m * 2 ^ (e + 1074))
  end.

(** The double nearest to a positive number [V] of units, in units: a
    number of more than 53 digits loses its low bits, and what does not
    fit a double becomes the infinity. *)
Definition rnd_val (V : Z) : Z :=
  let K := Z.log2 V + 1 - 53 in
  Z.min overflow_units (if K <=? 0 then V else rne_shift K V * 2 ^ K).

(** The same for any number of units; rounding is symmetric. *)
Definition Zrnd (V : Z) : Z :=
  if 0 <? V then rnd_val V
  else if V <? 0 then - rnd_val (- V)
  else 0.

Definition SFis_nan (f : spec_float) : bool :=
  match f with S754_nan => true | _ => false end.

End RoundingModel.

(** ** The status document and the conditions of the further properties *)

(** [random.uniform(a, b)] and [random.randint(a, b)] return a number
    from [a] to [b]: the draws of one reading are in the ranges that
    [read_sensors] asks for. *)
Definition draws_in_range (rnd : draws) : bool :=
  (-2.0 <=? uniform_temperature rnd)%float
  && (uniform_temperature rnd <=? 5.0)%float
  && (-10.0 <=? uniform_humidity rnd)%float
  && (uniform_humidity rnd <=? 10.0)%float
  && (-100 <=? randint_co2 rnd)%Z && (randint_co2 rnd <=? 300)%Z
  && (-5.0 <=? uniform_airflow rnd)%float
  && (uniform_airflow rnd <=? 10.0)%float.

Definition pyval_of_number (n : number) : pyval :=
  match n with
  | NInt z => PyInt z
  | NFloat f => PyFloat f
  end.

(** [self.sensor_data.__dict__] *)
Definition SensorData_dict (sd : SensorData) : gmap string pyval :=
  <["temperature" := PyFloat (temperature sd)]>
  (<["humidity" := PyFloat (humidity sd)]>
  (<["co2" := pyval_of_number (co2 sd)]>
  (<["airflow" := PyFloat (airflow sd)]> ∅))).

(** [self.state.__dict__] *)
Definition SystemState_dict (st : SystemState) : gmap string pyval :=
  <["heating" := PyBool (heating st)]>
  (<["cooling" := PyBool (cooling st)]>
  (<["humidifier" := PyBool (humidifier st)]>
  (<["fan_speed" := PyInt (fan_speed st)]>
  (<["recuperator" := PyBool (recuperator st)]> ∅)))).

(** The handler of [GET /status]: the document it answers with. *)
Definition get_status (self : VentilationSystem) : pyval :=
  PyDict (<["sensor_data" := PyDict (SensorData_dict (sensor_data self))]>
         (<["state" := PyDict (SystemState_dict (state self))]>
         (<["settings" := settings self]> ∅))).

(** Heater and cooler are not both on, and the fan is at one of the
    three speeds the program ever sets. *)
Definition safe_state (st : SystemState) : bool :=
  negb (heating st && cooling st)
  && ((fan_speed st =? 0)%Z || (fan_speed st =? 50)%Z || (fan_speed st =? 100)%Z).

(** A script in which the web thread serves no settings request. *)
Definition no_post (script : list event) : bool :=
  forallb (λ ev, match ev with Post _ => false | _ => true end) script.

(** A script of iterations only. *)
Definition only_iterations (script : list event) : bool :=
  forallb (λ ev, match ev with Iteration _ => true | _ => false end) script.

(** Neither a NaN nor an infinity. *)
Definition SFis_finite (f : spec_float) : bool :=
  match f with
  | S754_zero _ | S754_finite _ _ _ => true
  | _ => false
  end.


(** The object [VentilationSystem()] builds around loaded settings. *)
Definition started_with (v : pyval) : VentilationSystem :=
  set_settings v fresh_system.

(** * Properties *)

(** ** Binary64 rounding

    [binary_round] is [round_model]; in units it is [rnd_val], which is
    monotone; so adding a larger constant to a float never gives a smaller
    float.  The rules only need this for the constants [-1.0], [0.5] and
    [3.0]. *)
Section RoundingFacts.
Local Open Scope Z_scope.

(** *** Digits and shifts *)

(** A mantissa of [d] digits lies between [2^(d-1)] and [2^d]. *)
Lemma digits2_pos_bounds p :
  2 ^ (Zpos (digits2_pos p) - 1) <= Zpos p < 2 ^ Zpos (digits2_pos p).
Proof.
  induction p as [p IH|p IH|]; simpl digits2_pos.
  - rewrite Pos2Z.inj_succ.
    replace (Z.succ (Zpos (digits2_pos p)) - 1) with (Z.succ (Zpos (digits2_pos p) - 1)) by lia.
    rewrite !Z.pow_succ_r by lia. lia.
  - rewrite Pos2Z.inj_succ.
    replace (Z.succ (Zpos (digits2_pos p)) - 1) with (Z.succ (Zpos (digits2_pos p) - 1)) by lia.
    rewrite !Z.pow_succ_r by lia. lia.
  - simpl. lia.
Qed.

(** Shifting a mantissa left by [d] bits multiplies it by [2^d]. *)
Lemma iter_xO m d : Zpos (Pos.iter xO m d) = Zpos m * 2 ^ Zpos d.
Proof.
  revert m. induction d as [|d IH] using Pos.peano_ind; intros m.
  - simpl. lia.
  - rewrite Pos.iter_succ, Pos2Z.inj_succ, Z.pow_succ_r by lia.
    rewrite Pos2Z.inj_xO, IH. lia.
Qed.

(** [iter_pos] applies its function [p] times. *)
Lemma iter_pos_nat {A} (f : A -> A) p x :
  SpecFloat.iter_pos f p x = Nat.iter (Pos.to_nat p) f x.
Proof.
  revert x. induction p as [p IH|p IH|]; intros x; simpl SpecFloat.iter_pos.
  - rewrite !IH, Pos2Nat.inj_xI. 
    replace (S (2 * Pos.to_nat p)) with (Pos.to_nat p + (Pos.to_nat p + 1))%nat by lia.
    rewrite !Nat.iter_add. simpl. reflexivity.
  - rewrite !IH, Pos2Nat.inj_xO.
    replace (2 * Pos.to_nat p)%nat with (Pos.to_nat p + Pos.to_nat p)%nat by lia.
    rewrite Nat.iter_add. reflexivity.
  - reflexivity.
Qed.

(** One right shift halves the mantissa; the bit that falls off becomes the
    round bit and the old round bit joins the sticky bit. *)
Lemma shr_1_nonneg m r s :
  0 <= m ->
  shr_1 (Build_shr_record m r s) = Build_shr_record (m / 2) (Z.odd m) (r || s).
Proof.
  intros Hm. rewrite <- Z.div2_div.
  destruct m as [|[p|p|]|]; try lia; reflexivity.
Qed.

(** [n + 1] right shifts of a mantissa: quotient, round bit, sticky bit. *)
Lemma shr_iter M n :
  0 <= M ->
  Nat.iter (S n) shr_1 (Build_shr_record M false false)
  = Build_shr_record (M / 2 ^ (Z.of_nat n + 1)) (Z.testbit M (Z.of_nat n))
      (negb (M mod 2 ^ Z.of_nat n =? 0)).
Proof.
  intros HM. induction n as [|n IH].
  - change (Nat.iter 1 shr_1 ?x) with (shr_1 x).
    rewrite shr_1_nonneg by assumption.
    change (Z.of_nat 0) with 0. change (2 ^ 0) with 1. change (2 ^ (0 + 1)) with 2.
    rewrite Z.bit0_odd, Z.mod_1_r. reflexivity.
  - change (Nat.iter (S (S n)) shr_1 ?x) with (shr_1 (Nat.iter (S n) shr_1 x)).
    rewrite IH. clear IH.
    assert (0 < 2 ^ Z.of_nat n) by (apply Z.pow_pos_nonneg; lia).
    assert (0 < 2 ^ (Z.of_nat n + 1)) by (apply Z.pow_pos_nonneg; lia).
    rewrite shr_1_nonneg by (apply Z.div_pos; lia).
    rewrite Nat2Z.inj_succ.
    replace (Z.succ (Z.of_nat n) + 1) with (Z.succ (Z.of_nat n + 1)) by lia.
    replace (Z.succ (Z.of_nat n)) with (Z.of_nat n + 1) by lia.
    set (N := Z.of_nat n) in *.
    f_equal.
    + rewrite Z.div_div by lia. rewrite Z.pow_succ_r by lia.
      f_equal. lia.
    + rewrite (Z.testbit_odd M (N + 1)), Z.shiftr_div_pow2 by lia. reflexivity.
    + rewrite Z.testbit_odd, Z.shiftr_div_pow2 by lia.
      rewrite (Z.pow_add_r 2 N 1) by lia. change (2 ^ 1) with 2.
      rewrite Z.rem_mul_r by lia.
      rewrite Zmod_odd.
      pose proof (Z.mod_pos_bound M (2 ^ N) ltac:(lia)).
      destruct (Z.odd (M / 2 ^ N)); destruct (Z.eqb_spec (M mod 2 ^ N) 0) as [E'|E'];
        simpl; symmetry.
      * apply negb_true_iff, Z.eqb_neq. lia.
      * apply negb_true_iff, Z.eqb_neq. lia.
      * apply negb_false_iff, Z.eqb_eq. lia.
      * apply negb_true_iff, Z.eqb_neq. lia.
Qed.

(** Shifting right by [p] and rounding the record is [rne_shift]. *)
Lemma shr_rne p M e :
  0 <= M ->
  let '(mrs, e') := shr (Build_shr_record M false false) e (Zpos p) in
  round_nearest_even (shr_m mrs) (loc_of_shr_record mrs) = rne_shift (Zpos p) M
  /\ e' = e + Zpos p.
Proof.
  intros HM. unfold shr. rewrite iter_pos_nat.
  destruct (Pos2Nat.is_succ p) as [n Hn]. rewrite Hn.
  rewrite shr_iter by assumption.
  assert (Zpos p = Z.of_nat n + 1) as -> by lia.
  split; [|reflexivity].
  unfold rne_shift. replace (Z.of_nat n + 1 - 1) with (Z.of_nat n) by lia.
  simpl shr_m. unfold loc_of_shr_record, round_nearest_even.
  destruct (Z.testbit M (Z.of_nat n)), (negb (M mod 2 ^ Z.of_nat n =? 0)); simpl; try reflexivity.
  rewrite <- Z.negb_odd. destruct (Z.odd _); reflexivity.
Qed.

(** The bounds of [digits2_pos_bounds] determine the number of digits. *)
Lemma digits2_pos_unique p n :
  2 ^ (n - 1) <= Zpos p < 2 ^ n -> Zpos (digits2_pos p) = n.
Proof.
  intros [Hlo Hhi]. pose proof (digits2_pos_bounds p) as [Hlo' Hhi'].
  set (d := Zpos (digits2_pos p)) in *.
  assert (0 < d) by (unfold d; lia).
  assert (0 < n).
  { destruct (Z.lt_ge_cases 0 n); [assumption|].
    rewrite (Z.pow_neg_r 2 (n - 1)) in Hlo by lia.
    destruct (Z.eq_dec n 0) as [->|]; [simpl in Hhi; lia|].
    rewrite (Z.pow_neg_r 2 n) in Hhi by lia. lia. }
  destruct (Z.lt_trichotomy d n) as [Hlt|[Heq|Hgt]]; [|assumption|].
  - assert (2 ^ d <= 2 ^ (n - 1)) by (apply Z.pow_le_mono_r; lia). lia.
  - assert (2 ^ n <= 2 ^ (d - 1)) by (apply Z.pow_le_mono_r; lia). lia.
Qed.

(** At the exponent the format asks for, nothing is shifted or rounded. *)
Lemma binary_round_aux_exact s mz e :
  fexp prec emax (Zpos (digits2_pos mz) + e) = e ->
  binary_round_aux prec emax s (Zpos mz) e loc_Exact = make_float s (Zpos mz) e.
Proof.
  intros H. unfold binary_round_aux, shr_fexp. simpl Zdigits2.
  rewrite H, Z.sub_diag. simpl.
  rewrite H, Z.sub_diag. simpl. reflexivity.
Qed.

Lemma rne_shift_range k M :
  0 < k -> 0 <= M ->
  M / 2 ^ k <= rne_shift k M <= M / 2 ^ k + 1.
Proof.
  intros. unfold rne_shift.
  destruct (_ && _); lia.
Qed.

(** Below the exponent the format asks for, the mantissa has more than 53
    digits: the low bits are rounded away, and a mantissa that rounds up to
    [2^53] moves one exponent up. *)
Lemma binary_round_aux_shift s mx ex :
  let e := fexp prec emax (Zpos (digits2_pos mx) + ex) in
  emin <= ex -> ex < e ->
  binary_round_aux prec emax s (Zpos mx) ex loc_Exact
  = let q := rne_shift (e - ex) (Zpos mx) in
    if q =? 2 ^ 53 then make_float s (2 ^ 52) (e + 1) else make_float s q e.
Proof.
  intros e Hmin Hlt.
  pose proof (digits2_pos_bounds mx) as Hd.
  set (d := Zpos (digits2_pos mx)) in *.
  assert (e = d + ex - 53) as He.
  { unfold e, fexp, SpecFloat.emin, prec, emax in *. lia. }
  unfold binary_round_aux, shr_fexp. simpl Zdigits2. fold d. fold e.
  simpl shr_record_of_loc.
  assert (emin <= e) as Hmin' by lia.
  clearbody e d.
  destruct (e - ex) as [|k|k] eqn:Hk; try lia.
  pose proof (shr_rne k (Zpos mx) ex ltac:(lia)) as Hshr.
  destruct (shr _ ex (Zpos k)) as [mrs e'].
  destruct Hshr as [Hq ->]. rewrite Hq.
  assert (ex + Zpos k = e) as -> by lia.
  assert (2 ^ d = 2 ^ 53 * 2 ^ Zpos k) as Hpow.
  { rewrite <- Z.pow_add_r by lia. f_equal. lia. }
  assert (2 ^ (d - 1) = 2 ^ 52 * 2 ^ Zpos k) as Hpow'.
  { rewrite <- Z.pow_add_r by lia. f_equal. lia. }
  assert (0 < 2 ^ Zpos k) as Hpos by (apply Z.pow_pos_nonneg; lia).
  assert (2 ^ 52 <= Zpos mx / 2 ^ Zpos k < 2 ^ 53) as Hq0.
  { split.
    - apply Z.div_le_lower_bound; lia.
    - apply Z.div_lt_upper_bound; lia. }
  pose proof (rne_shift_range (Zpos k) (Zpos mx) ltac:(lia) ltac:(lia)) as Hr.
  set (q := rne_shift (Zpos k) (Zpos mx)) in *.
  cbv zeta.
  destruct (Z.eqb_spec q (2 ^ 53)) as [Eq|Nq].
  - rewrite Eq.
    replace (fexp prec emax (Zdigits2 (2 ^ 53) + e) - e) with 1.
    2:{ change (Zdigits2 (2 ^ 53)) with 54.
        unfold fexp, SpecFloat.emin, prec, emax in *. lia. }
    reflexivity.
  - destruct q as [|qp|qp]; try lia.
    assert (Zpos (digits2_pos qp) = 53) as Hdq.
    { apply digits2_pos_unique. change (53 - 1) with 52. lia. }
    simpl Zdigits2. rewrite Hdq.
    replace (fexp prec emax (53 + e) - e) with 0.
    2:{ unfold fexp, SpecFloat.emin, prec, emax in *. lia. }
    reflexivity.
Qed.

Lemma digits2_pos_shift m n :
  0 <= n -> Zpos (digits2_pos m) + n
            = match Zpos m * 2 ^ n with Zpos p => Zpos (digits2_pos p) | _ => 0 end.
Proof.
  intros Hn. pose proof (digits2_pos_bounds m) as Hd.
  assert (0 < 2 ^ n) by (apply Z.pow_pos_nonneg; lia).
  destruct (Zpos m * 2 ^ n) as [|p|p] eqn:E; try lia.
  symmetry. apply digits2_pos_unique. rewrite <- E.
  replace (Zpos (digits2_pos m) + n - 1) with (Zpos (digits2_pos m) - 1 + n) by lia.
  rewrite !Z.pow_add_r by lia. nia.
Qed.

(** [binary_round] computes [round_model]. *)
Lemma binary_round_model s mx ex :
  emin <= ex ->
  binary_round prec emax s mx ex = round_model s mx ex.
Proof.
  intros Hmin. unfold binary_round, round_model.
  set (e := fexp prec emax (Zpos (digits2_pos mx) + ex)).
  unfold shl_align.
  destruct (Z.leb_spec e ex) as [Hle|Hgt].
  - destruct (e - ex) as [|k|k] eqn:Hk; try lia.
    + assert (e = ex) as He by lia.
      rewrite binary_round_aux_exact by (fold e; lia).
      rewrite He, Z.sub_diag, Z.mul_1_r. reflexivity.
    + assert (ex - e = Zpos k) as Hk' by lia. rewrite Hk'.
      pose proof (digits2_pos_shift mx (Zpos k) ltac:(lia)) as Hs.
      rewrite <- iter_xO in *. simpl in Hs.
      rewrite binary_round_aux_exact; [reflexivity|].
      rewrite <- Hs.
      replace (Zpos (digits2_pos mx) + Zpos k + e) with (Zpos (digits2_pos mx) + ex) by lia.
      reflexivity.
  - destruct (e - ex) as [|k|k] eqn:Hk; try lia.
    rewrite binary_round_aux_shift by (fold e; lia).
    fold e. rewrite Hk. reflexivity.
Qed.

(** *** The value of a rounded float *)

Lemma pow2_pos n : 0 <= n -> 0 < 2 ^ n.
Proof. intros. apply Z.pow_pos_nonneg; lia. Qed.

Lemma pow2_le m n : 0 <= m <= n -> 2 ^ m <= 2 ^ n.
Proof. intros. apply Z.pow_le_mono_r; lia. Qed.

Lemma log2_digits p : Z.log2 (Zpos p) + 1 = Zpos (digits2_pos p).
Proof.
  pose proof (digits2_pos_bounds p) as H.
  set (d := Zpos (digits2_pos p)) in *.
  assert (Z.log2 (Zpos p) = d - 1) as ->; [|lia].
  apply Z.log2_unique; [unfold d; lia|].
  replace (Z.succ (d - 1)) with d by lia. exact H.
Qed.

Lemma log2_digits' p : Z.log2 (Zpos p) = Zpos (digits2_pos p) - 1.
Proof. pose proof (log2_digits p). lia. Qed.

(** The units of a float made from a mantissa below [2^53]. *)
Lemma units_make_float s m e :
  0 < m < 2 ^ 53 -> -1074 <= e -> (2 ^ 52 <= m \/ e <= 971) ->
  SFunits (make_float s m e) = cond_Zopp s (Z.min overflow_units (m * 2 ^ (e + 1074))).
Proof.
  intros Hm He Hor. destruct m as [|p|p]; try lia.
  unfold make_float. change (emax - prec) with 971.
  destruct (Z.leb_spec e 971) as [Hle|Hgt]; simpl SFunits; f_equal.
  - assert (2 ^ (e + 1074) <= 2 ^ 2045) by (apply pow2_le; lia).
    assert (0 < 2 ^ (e + 1074)) by (apply pow2_pos; lia).
    assert (overflow_units = 2 ^ 53 * 2 ^ 2045) as Ht by reflexivity.
    rewrite Z.min_r; [reflexivity|]. rewrite Ht. nia.
  - assert (2 ^ 2046 <= 2 ^ (e + 1074)) by (apply pow2_le; lia).
    assert (overflow_units = 2 ^ 52 * 2 ^ 2046) as Ht by reflexivity.
    rewrite Z.min_l; [reflexivity|]. rewrite Ht.
    destruct Hor; [|lia]. nia.
Qed.

(** Nothing is rounded when the low bits are zero. *)
Lemma rne_shift_exact K N : 0 < K -> rne_shift K (N * 2 ^ K) = N.
Proof.
  intros HK. unfold rne_shift.
  rewrite Z.mul_pow2_bits_low by lia. simpl.
  apply Z.div_mul. pose proof (pow2_pos K). lia.
Qed.

(** Rounding at bit [k + c] of [M * 2^c] is rounding at bit [k] of [M]. *)
Lemma rne_shift_scale k c M :
  0 < k -> 0 <= c -> rne_shift (k + c) (M * 2 ^ c) = rne_shift k M.
Proof.
  intros Hk Hc. unfold rne_shift.
  pose proof (pow2_pos c Hc). pose proof (pow2_pos k ltac:(lia)).
  pose proof (pow2_pos (k - 1) ltac:(lia)).
  replace (k + c - 1) with (c + (k - 1)) by lia.
  rewrite Z.mul_pow2_bits_add by lia.
  replace (k + c) with (c + k) by lia.
  rewrite !Z.pow_add_r by lia.
  rewrite !(Z.mul_comm (2 ^ c)).
  rewrite Z.div_mul_cancel_r by lia.
  rewrite Z.mul_mod_distr_r by lia.
  replace (M mod 2 ^ (k - 1) * 2 ^ c =? 0) with (M mod 2 ^ (k - 1) =? 0).
  - reflexivity.
  - destruct (Z.eqb_spec (M mod 2 ^ (k - 1)) 0) as [E|E].
    + rewrite E. reflexivity.
    + symmetry. apply Z.eqb_neq. nia.
Qed.

(** In units, [round_model] is [rnd_val] of the exact value. *)
Lemma units_round_model s mx ex :
  emin <= ex ->
  SFunits (round_model s mx ex) = cond_Zopp s (rnd_val (Zpos mx * 2 ^ (ex + 1074))).
Proof.
  intros Hmin. change emin with (-1074) in Hmin.
  pose proof (digits2_pos_bounds mx) as Hd.
  assert (0 < 2 ^ (ex + 1074)) as Hc by (apply pow2_pos; lia).
  unfold rnd_val, round_model.
  rewrite Z.log2_mul_pow2, log2_digits' by lia.
  set (d := Zpos (digits2_pos mx)) in *.
  assert (0 < d) as Hdpos by (unfold d; lia).
  set (e := fexp prec emax (d + ex)).
  assert (e = Z.max (d + ex - 53) (-1074)) as He by reflexivity.
  clearbody e d.
  set (K := ex + 1074 + (d - 1) + 1 - 53).
  destruct (Z.leb_spec e ex) as [Hle|Hgt].
  - (* the value is representable *)
    assert (0 < 2 ^ (ex - e)) as Hs by (apply pow2_pos; lia).
    assert (Zpos mx * 2 ^ (ex + 1074) = Zpos mx * 2 ^ (ex - e) * 2 ^ (e + 1074)) as HV.
    { rewrite <- Z.mul_assoc, <- Z.pow_add_r by lia. do 2 f_equal. lia. }
    assert (Zpos mx * 2 ^ (ex - e) < 2 ^ 53) as Hlt.
    { assert (2 ^ d * 2 ^ (ex - e) <= 2 ^ 53).
      { rewrite <- Z.pow_add_r by lia. apply pow2_le. lia. }
      nia. }
    rewrite units_make_float; [|nia|lia|].
    2:{ destruct (Z.le_gt_cases e 971) as [?|Hbig]; [now right|left].
        assert (2 ^ (d - 1) * 2 ^ (ex - e) = 2 ^ 52) as <-.
        { rewrite <- Z.pow_add_r by lia. f_equal. lia. }
        nia. }
    rewrite <- HV. f_equal. f_equal.
    destruct (Z.leb_spec K 0) as [HK|HK]; [reflexivity|].
    assert (e + 1074 = K) as HeK by lia.
    rewrite HV, HeK. now rewrite rne_shift_exact.
  - (* the low bits are rounded away *)
    assert (e = d + ex - 53) as He' by lia.
    assert (K = e - ex + (ex + 1074)) as HK by lia.
    destruct (Z.leb_spec K 0) as [?|_]; [lia|].
    rewrite HK, rne_shift_scale by lia.
    assert (2 ^ d = 2 ^ 53 * 2 ^ (e - ex)) as Hpow.
    { rewrite <- Z.pow_add_r by lia. f_equal. lia. }
    assert (2 ^ (d - 1) = 2 ^ 52 * 2 ^ (e - ex)) as Hpow'.
    { rewrite <- Z.pow_add_r by lia. f_equal. lia. }
    assert (0 < 2 ^ (e - ex)) as Hpos by (apply pow2_pos; lia).
    assert (2 ^ 52 <= Zpos mx / 2 ^ (e - ex) < 2 ^ 53) as Hq0.
    { split.
      - apply Z.div_le_lower_bound; lia.
      - apply Z.div_lt_upper_bound; lia. }
    pose proof (rne_shift_range (e - ex) (Zpos mx) ltac:(lia) ltac:(lia)) as Hr.
    set (q := rne_shift (e - ex) (Zpos mx)) in *.
    replace (e - ex + (ex + 1074)) with (e + 1074) by lia.
    destruct (Z.eqb_spec q (2 ^ 53)) as [Eq|Nq].
    + rewrite units_make_float; [|lia|lia|left; lia].
      rewrite Eq. do 2 f_equal.
      replace (e + 1 + 1074) with (1 + (e + 1074)) by lia.
      rewrite (Z.pow_add_r 2 1) by lia. change (2 ^ 53) with (2 ^ 52 * 2 ^ 1). lia.
    + rewrite units_make_float; [reflexivity|lia|lia|left; lia].
Qed.

(** *** Rounding is monotone *)

(** Rounding at a fixed bit is monotone. *)
Lemma rne_shift_mono k M1 M2 :
  0 < k -> 0 <= M1 <= M2 -> rne_shift k M1 <= rne_shift k M2.
Proof.
  intros Hk HM. unfold rne_shift.
  rewrite !Z.testbit_odd, !Z.shiftr_div_pow2 by lia.
  replace (2 ^ k) with (2 ^ (k - 1) * 2).
  2:{ rewrite Z.mul_comm, <- Z.pow_succ_r by lia. f_equal. lia. }
  pose proof (pow2_pos (k - 1) ltac:(lia)) as Hh.
  set (h := 2 ^ (k - 1)) in *. clearbody h.
  rewrite <- !Z.div_div by lia.
  pose proof (Z.div_mod M1 h ltac:(lia)) as E1.
  pose proof (Z.div_mod M2 h ltac:(lia)) as E2.
  pose proof (Z.mod_pos_bound M1 h Hh) as B1.
  pose proof (Z.mod_pos_bound M2 h Hh) as B2.
  assert (M1 / h <= M2 / h) as Ha by (apply Z.div_le_mono; lia).
  set (a1 := M1 / h) in *. set (a2 := M2 / h) in *.
  set (l1 := M1 mod h) in *. set (l2 := M2 mod h) in *.
  clearbody a1 a2 l1 l2.
  pose proof (Z.div_mod a1 2 ltac:(lia)) as Q1.
  pose proof (Z.div_mod a2 2 ltac:(lia)) as Q2.
  rewrite Zmod_odd in Q1, Q2.
  assert (a1 / 2 <= a2 / 2) as Hq by (apply Z.div_le_mono; lia).
  destruct (Z.eq_dec (a1 / 2) (a2 / 2)) as [Eq|Nq].
  - rewrite <- Eq in *.
    destruct (Z.odd a1) eqn:O1, (Z.odd a2) eqn:O2; simpl; try lia.
    + assert (a1 = a2) as -> by lia.
      assert (l1 <= l2) by lia.
      destruct (Z.eqb_spec l1 0), (Z.eqb_spec l2 0); simpl; try lia.
      destruct (Z.odd (a2 / 2)); lia.
    + destruct (negb (l2 =? 0) || Z.odd (a1 / 2)); lia.
  - destruct (Z.odd a1 && _), (Z.odd a2 && _); lia.
Qed.

Lemma log2_bounds V :
  0 < V -> 2 ^ Z.log2 V <= V < 2 ^ (Z.log2 V + 1) /\ 0 <= Z.log2 V.
Proof.
  intros HV. split; [|apply Z.log2_nonneg].
  apply (Z.log2_spec V HV).
Qed.

(** A number of [53 + K] digits rounds to a number between [2^(52 + K)]
    and [2^(53 + K)]. *)
Lemma rne_scaled_bounds K V :
  0 < V -> K = Z.log2 V + 1 - 53 -> 0 < K ->
  2 ^ (52 + K) <= rne_shift K V * 2 ^ K <= 2 ^ (53 + K).
Proof.
  intros HV HK HKpos.
  destruct (log2_bounds V HV) as [[Hlo Hhi] Hnn].
  assert (Z.log2 V = 52 + K) as E by lia. rewrite E in *.
  replace (52 + K + 1) with (53 + K) in Hhi by lia.
  rewrite !(Z.pow_add_r 2 _ K) in * by lia.
  pose proof (pow2_pos K ltac:(lia)) as Hp.
  assert (2 ^ 52 <= V / 2 ^ K < 2 ^ 53) as Hq.
  { split.
    - apply Z.div_le_lower_bound; lia.
    - apply Z.div_lt_upper_bound; lia. }
  pose proof (rne_shift_range K V HKpos ltac:(lia)). nia.
Qed.

(** Rounding a positive number of units is monotone. *)
Lemma rnd_val_mono V1 V2 : 0 < V1 <= V2 -> rnd_val V1 <= rnd_val V2.
Proof.
  intros [H1 H12]. unfold rnd_val.
  apply Z.min_le_compat_l.
  pose proof (Z.log2_le_mono V1 V2 H12) as Hlog.
  destruct (log2_bounds V1 H1) as [[Hlo1 Hhi1] Hn1].
  destruct (log2_bounds V2 ltac:(lia)) as [[Hlo2 Hhi2] Hn2].
  set (K1 := Z.log2 V1 + 1 - 53). set (K2 := Z.log2 V2 + 1 - 53).
  destruct (Z.leb_spec K1 0) as [L1|G1], (Z.leb_spec K2 0) as [L2|G2];
    try lia.
  - pose proof (rne_scaled_bounds K2 V2 ltac:(lia) eq_refl G2) as [B2 _].
    assert (2 ^ (Z.log2 V1 + 1) <= 2 ^ (52 + K2)) by (apply pow2_le; lia).
    lia.
  - pose proof (rne_scaled_bounds K1 V1 H1 eq_refl G1) as [_ B1].
    pose proof (rne_scaled_bounds K2 V2 ltac:(lia) eq_refl G2) as [B2 _].
    destruct (Z.eq_dec K1 K2) as [E|N].
    + rewrite <- E.
      pose proof (rne_shift_mono K1 V1 V2 G1 ltac:(lia)).
      pose proof (pow2_pos K1 ltac:(lia)). nia.
    + assert (2 ^ (53 + K1) <= 2 ^ (52 + K2)) by (apply pow2_le; lia).
      lia.
Qed.

Lemma rnd_val_nonneg V : 0 < V -> 0 <= rnd_val V.
Proof.
  intros HV. unfold rnd_val. apply Z.min_glb; [unfold overflow_units; apply Z.pow_nonneg; lia|].
  destruct (Z.leb_spec (Z.log2 V + 1 - 53) 0) as [L|G]; [lia|].
  pose proof (rne_scaled_bounds _ V HV eq_refl G) as [B _].
  pose proof (pow2_pos (52 + (Z.log2 V + 1 - 53)) ltac:(lia)). lia.
Qed.

(** Rounding is monotone on all integers. *)
Lemma Zrnd_mono V1 V2 : V1 <= V2 -> Zrnd V1 <= Zrnd V2.
Proof.
  intros H. unfold Zrnd.
  pose proof (rnd_val_nonneg V1). pose proof (rnd_val_nonneg V2).
  pose proof (rnd_val_nonneg (- V1)). pose proof (rnd_val_nonneg (- V2)).
  pose proof (rnd_val_mono V1 V2). pose proof (rnd_val_mono (- V2) (- V1)).
  destruct (Z.ltb_spec 0 V1), (Z.ltb_spec 0 V2), (Z.ltb_spec V1 0), (Z.ltb_spec V2 0);
    lia.
Qed.

(** *** Comparing valid floats is comparing their values *)

(** What [valid_binary] says about a finite float. *)
Lemma valid_finite_inv s m e :
  valid_binary (S754_finite s m e) = true ->
  -1074 <= e <= 971 /\ 0 < Zpos m < 2 ^ 53 /\ (e = -1074 \/ 2 ^ 52 <= Zpos m).
Proof.
  unfold SpecFloat.valid_binary, bounded, canonical_mantissa.
  intros H. apply andb_true_iff in H as [H1 H2].
  apply Z.eqb_eq in H1. apply Z.leb_le in H2.
  change (emax - prec) with 971 in H2.
  unfold fexp, SpecFloat.emin, prec, emax in H1.
  pose proof (digits2_pos_bounds m) as [Hlo Hhi].
  set (d := Zpos (digits2_pos m)) in *.
  assert (0 < d) by (unfold d; lia). clearbody d.
  assert (d <= 53) by lia.
  assert (2 ^ d <= 2 ^ 53) by (apply pow2_le; lia).
  repeat split; try lia.
  destruct (Z.eq_dec e (-1074)); [now left|right].
  assert (d = 53) as -> by lia. exact Hlo.
Qed.

Lemma units_finite_bounds s m e :
  valid_binary (S754_finite s m e) = true ->
  0 < Zpos m * 2 ^ (e + 1074) < overflow_units.
Proof.
  intros H. apply valid_finite_inv in H as (He & Hm & _).
  assert (0 < 2 ^ (e + 1074)) by (apply pow2_pos; lia).
  assert (2 ^ (e + 1074) <= 2 ^ 2045) by (apply pow2_le; lia).
  assert (overflow_units = 2 ^ 53 * 2 ^ 2045) as -> by reflexivity.
  nia.
Qed.

(** On positive valid floats the order on (exponent, mantissa) is the
    order of the values. *)
Lemma compare_finite_pos m1 e1 m2 e2 :
  valid_binary (S754_finite false m1 e1) = true ->
  valid_binary (S754_finite false m2 e2) = true ->
  match e1 ?= e2 with
  | Lt => Lt
  | Gt => Gt
  | Eq => Pos.compare_cont Eq m1 m2
  end = (Zpos m1 * 2 ^ (e1 + 1074) ?= Zpos m2 * 2 ^ (e2 + 1074)).
Proof.
  intros V1 V2.
  apply valid_finite_inv in V1 as (He1 & Hm1 & Hn1).
  apply valid_finite_inv in V2 as (He2 & Hm2 & Hn2).
  assert (0 < 2 ^ (e1 + 1074)) by (apply pow2_pos; lia).
  assert (0 < 2 ^ (e2 + 1074)) by (apply pow2_pos; lia).
  assert (forall a b, a < b -> 2 ^ (53 + (a + 1074)) <= 2 ^ (52 + (b + 1074))) as Hstep.
  { intros a b Hab. destruct (Z.le_gt_cases 0 (53 + (a + 1074))).
    - apply pow2_le. lia.
    - rewrite (Z.pow_neg_r 2 (53 + _)) by lia. apply Z.pow_nonneg. lia. }
  destruct (Z.compare_spec e1 e2) as [E|L|G]; symmetry.
  - subst e2. rewrite <- Zmult_compare_compat_r by lia. reflexivity.
  - apply Z.compare_lt_iff.
    pose proof (Hstep e1 e2 L) as Hs.
    rewrite (Z.pow_add_r 2 53), (Z.pow_add_r 2 52) in Hs by lia. nia.
  - apply Z.compare_gt_iff.
    pose proof (Hstep e2 e1 ltac:(lia)) as Hs.
    rewrite (Z.pow_add_r 2 53), (Z.pow_add_r 2 52) in Hs by lia. nia.
Qed.

(** [SFcompare] on valid floats that are not NaN compares their units. *)
Lemma SFcompare_units x y :
  valid_binary x = true -> valid_binary y = true ->
  SFis_nan x = false -> SFis_nan y = false ->
  SFcompare x y = Some (SFunits x ?= SFunits y).
Proof.
  intros Vx Vy Nx Ny.
  pose proof overflow_units as _.
  assert (0 < overflow_units) as Htop by (apply pow2_pos; lia).
  destruct x as [sx|sx| |sx mx ex], y as [sy|sy| |sy my ey]; try discriminate;
    try pose proof (units_finite_bounds _ _ _ Vx) as Bx;
    try pose proof (units_finite_bounds _ _ _ Vy) as By;
    unfold SFcompare, SFunits; f_equal;
    try (destruct sx); try (destruct sy); unfold cond_Zopp; symmetry;
    try (apply Z.compare_eq_iff; lia);
    try (apply Z.compare_lt_iff; lia);
    try (apply Z.compare_gt_iff; lia).
  - rewrite Z.compare_opp, <- (compare_finite_pos my ey mx ex) by assumption.
    rewrite (Z.compare_antisym ex ey), (Pos.compare_cont_antisym mx my Eq).
    destruct (ex ?= ey); reflexivity.
  - symmetry. now apply compare_finite_pos.
Qed.

(** *** Addition rounds the exact sum *)

Lemma shl_align_fst mx ex ez :
  ez <= ex -> Zpos (fst (shl_align mx ex ez)) = Zpos mx * 2 ^ (ex - ez).
Proof.
  intros H. unfold shl_align.
  destruct (ez - ex) as [|k|k] eqn:E; try lia.
  - replace (ex - ez) with 0 by lia. simpl fst. lia.
  - simpl fst. rewrite iter_xO. f_equal. f_equal. lia.
Qed.

(** [binary_normalize] rounds the number it is given. *)
Lemma units_binary_normalize M e :
  emin <= e ->
  SFunits (binary_normalize prec emax M e false) = Zrnd (M * 2 ^ (e + 1074)).
Proof.
  intros He. assert (0 < 2 ^ (e + 1074)) as Hp.
  { apply pow2_pos. change emin with (-1074) in He. lia. }
  unfold Zrnd, binary_normalize. destruct M as [|p|p].
  - reflexivity.
  - rewrite binary_round_model, units_round_model by assumption.
    destruct (Z.ltb_spec 0 (Zpos p * 2 ^ (e + 1074))); [reflexivity|nia].
  - rewrite binary_round_model, units_round_model by assumption.
    destruct (Z.ltb_spec 0 (Zneg p * 2 ^ (e + 1074))); [nia|].
    destruct (Z.ltb_spec (Zneg p * 2 ^ (e + 1074)) 0); [|nia].
    simpl cond_Zopp. do 2 f_equal. lia.
Qed.

(** The sum of two finite floats is their exact sum, rounded. *)
Lemma SFadd_finite_units sx mx ex sy my ey :
  valid_binary (S754_finite sx mx ex) = true ->
  valid_binary (S754_finite sy my ey) = true ->
  SFunits (SFadd prec emax (S754_finite sx mx ex) (S754_finite sy my ey))
  = Zrnd (SFunits (S754_finite sx mx ex) + SFunits (S754_finite sy my ey)).
Proof.
  intros Vx Vy.
  apply valid_finite_inv in Vx as (Hex & _ & _).
  apply valid_finite_inv in Vy as (Hey & _ & _).
  unfold SFadd. cbv zeta.
  rewrite units_binary_normalize by (change emin with (-1074); lia).
  f_equal. rewrite Z.mul_add_distr_r.
  assert (forall s m e, Z.min ex ey <= e ->
            cond_Zopp s (Zpos (fst (shl_align m e (Z.min ex ey))))
              * 2 ^ (Z.min ex ey + 1074)
            = cond_Zopp s (Zpos m * 2 ^ (e + 1074))) as Hal.
  { intros s m e Hle. rewrite shl_align_fst by assumption.
    assert (Zpos m * 2 ^ (e - Z.min ex ey) * 2 ^ (Z.min ex ey + 1074)
            = Zpos m * 2 ^ (e + 1074)) as <-.
    { rewrite <- Z.mul_assoc, <- Z.pow_add_r by lia. do 2 f_equal. lia. }
    destruct s; simpl; lia. }
  rewrite !Hal by lia. reflexivity.
Qed.

(** Subtracting a finite float is adding its opposite. *)
Lemma SFsub_finite x s m e :
  SFsub prec emax x (S754_finite s m e)
  = SFadd prec emax x (S754_finite (negb s) m e).
Proof.
  destruct x as [sx|sx| |sx mx ex]; try reflexivity.
  unfold SFsub, SFadd. cbv zeta. f_equal. destruct s; simpl; lia.
Qed.

Lemma SFis_nan_make_float s m e : 0 <= m -> SFis_nan (make_float s m e) = false.
Proof.
  intros H. destruct m as [|p|p]; try lia; unfold make_float; [reflexivity|].
  destruct (e <=? emax - prec); reflexivity.
Qed.

Lemma SFis_nan_binary_normalize M e :
  emin <= e -> SFis_nan (binary_normalize prec emax M e false) = false.
Proof.
  intros He. unfold binary_normalize.
  assert (forall s p, SFis_nan (round_model s p e) = false) as H.
  { intros s p. unfold round_model.
    set (e' := fexp prec emax (Zpos (digits2_pos p) + e)).
    destruct (Z.leb_spec e' e).
    - apply SFis_nan_make_float. pose proof (pow2_pos (e - e') ltac:(lia)). nia.
    - pose proof (rne_shift_range (e' - e) (Zpos p) ltac:(lia) ltac:(lia)) as Hr.
      pose proof (pow2_pos (e' - e) ltac:(lia)).
      assert (0 <= Zpos p / 2 ^ (e' - e)) by (apply Z.div_pos; lia).
      cbv zeta. destruct (_ =? _); apply SFis_nan_make_float; lia. }
  destruct M; [reflexivity| |]; now rewrite binary_round_model.
Qed.

(** Adding a larger finite float gives a float that is not smaller. *)
Lemma SFadd_mono x sa ma ea sb mb eb :
  valid_binary x = true ->
  valid_binary (S754_finite sa ma ea) = true ->
  valid_binary (S754_finite sb mb eb) = true ->
  SFunits (S754_finite sa ma ea) <= SFunits (S754_finite sb mb eb) ->
  SFis_nan x = false ->
  SFis_nan (SFadd prec emax x (S754_finite sa ma ea)) = false
  /\ SFis_nan (SFadd prec emax x (S754_finite sb mb eb)) = false
  /\ SFunits (SFadd prec emax x (S754_finite sa ma ea))
     <= SFunits (SFadd prec emax x (S754_finite sb mb eb)).
Proof.
  intros Vx Va Vb Hab Nx.
  destruct x as [sx|sx| |sx mx ex]; try discriminate.
  - simpl SFadd. split; [reflexivity|split; [reflexivity|exact Hab]].
  - simpl SFadd. split; [reflexivity|split; [reflexivity|lia]].
  - rewrite !SFadd_finite_units by assumption.
    apply valid_finite_inv in Vx as (Hex & _ & _).
    apply valid_finite_inv in Va as (Hea & _ & _).
    apply valid_finite_inv in Vb as (Heb & _ & _).
    split; [|split].
    + apply SFis_nan_binary_normalize. change emin with (-1074). lia.
    + apply SFis_nan_binary_normalize. change emin with (-1074). lia.
    + apply Zrnd_mono. lia.
Qed.

(** *** Primitive floats *)

Lemma SFcompare_nan_l y : SFcompare S754_nan y = None.
Proof. reflexivity. Qed.

Lemma SFcompare_nan_r x : SFcompare x S754_nan = None.
Proof. now destruct x. Qed.

(** [<?] on primitive floats, in units. *)
Lemma ltb_units (x y : float) :
  (x <? y)%float = true
  <-> SFis_nan (Prim2SF x) = false /\ SFis_nan (Prim2SF y) = false
      /\ SFunits (Prim2SF x) < SFunits (Prim2SF y).
Proof.
  rewrite ltb_spec. unfold SFltb.
  destruct (SFis_nan (Prim2SF x)) eqn:Nx.
  { destruct (Prim2SF x); try discriminate. rewrite SFcompare_nan_l.
    split; [discriminate|intros (? & _); discriminate]. }
  destruct (SFis_nan (Prim2SF y)) eqn:Ny.
  { destruct (Prim2SF y); try discriminate. rewrite SFcompare_nan_r.
    split; [discriminate|intros (_ & ? & _); discriminate]. }
  rewrite SFcompare_units by (try apply Prim2SF_valid; assumption).
  destruct (Z.compare_spec (SFunits (Prim2SF x)) (SFunits (Prim2SF y))); split;
    try discriminate; try (intros (_ & _ & ?); lia); auto.
Qed.

Lemma add_nan_l (t c : float) :
  SFis_nan (Prim2SF t) = true -> SFis_nan (Prim2SF (t + c)) = true.
Proof.
  intros H. rewrite add_spec. unfold SF64add.
  destruct (Prim2SF t); try discriminate. reflexivity.
Qed.

Lemma sub_nan_l (t c : float) :
  SFis_nan (Prim2SF t) = true -> SFis_nan (Prim2SF (t - c)) = true.
Proof.
  intros H. rewrite sub_spec. unfold SF64sub.
  destruct (Prim2SF t); try discriminate. reflexivity.
Qed.

(** [t + a] is at most [t + b] for finite [a <= b]. *)
Lemma add_mono (t a b : float) sa ma ea sb mb eb :
  Prim2SF a = S754_finite sa ma ea ->
  Prim2SF b = S754_finite sb mb eb ->
  SFunits (Prim2SF a) <= SFunits (Prim2SF b) ->
  SFis_nan (Prim2SF t) = false ->
  SFis_nan (Prim2SF (t + a)) = false /\ SFis_nan (Prim2SF (t + b)) = false
  /\ SFunits (Prim2SF (t + a)) <= SFunits (Prim2SF (t + b)).
Proof.
  intros Ha Hb Hab Nt.
  pose proof (Prim2SF_valid a) as Va. pose proof (Prim2SF_valid b) as Vb.
  rewrite !add_spec. unfold SF64add. rewrite Ha, Hb in *.
  apply SFadd_mono; try assumption. apply Prim2SF_valid.
Qed.

(** [t - a] is at most [t + b] for finite [- a <= b]. *)
Lemma sub_add_mono (t a b : float) sa ma ea sb mb eb :
  Prim2SF a = S754_finite sa ma ea ->
  Prim2SF b = S754_finite sb mb eb ->
  - SFunits (Prim2SF a) <= SFunits (Prim2SF b) ->
  SFis_nan (Prim2SF t) = false ->
  SFis_nan (Prim2SF (t - a)) = false /\ SFis_nan (Prim2SF (t + b)) = false
  /\ SFunits (Prim2SF (t - a)) <= SFunits (Prim2SF (t + b)).
Proof.
  intros Ha Hb Hab Nt.
  pose proof (Prim2SF_valid a) as Va. pose proof (Prim2SF_valid b) as Vb.
  rewrite add_spec, sub_spec. unfold SF64add, SF64sub.
  rewrite Ha, Hb in *. rewrite SFsub_finite.
  apply SFadd_mono; try assumption; try apply Prim2SF_valid.
  destruct sa; simpl in *; lia.
Qed.

Lemma Prim2SF_one : Prim2SF 1.0 = S754_finite false 4503599627370496 (-52).
Proof. reflexivity. Qed.

Lemma Prim2SF_half : Prim2SF 0.5 = S754_finite false 4503599627370496 (-53).
Proof. reflexivity. Qed.

Lemma Prim2SF_three : Prim2SF 3.0 = S754_finite false 6755399441055744 (-51).
Proof. reflexivity. Qed.

(** The two comparisons of the heating rule cannot both hold:
    [t - 1.0 <= t + 0.5] also after rounding. *)
Lemma heating_thresholds_exclusive (t x : float) :
  (x <? t - 1.0)%float = true -> (t + 0.5 <? x)%float = false.
Proof.
  intros H. apply ltb_units in H as (Nx & Nlow & Hlt).
  destruct (SFis_nan (Prim2SF t)) eqn:Nt.
  { rewrite sub_nan_l in Nlow by assumption. discriminate. }
  destruct (sub_add_mono t 1.0 0.5 _ _ _ _ _ _ Prim2SF_one Prim2SF_half) as (_ & _ & Hle);
    [rewrite Prim2SF_one, Prim2SF_half; simpl; lia|assumption|].
  destruct (t + 0.5 <? x)%float eqn:E; [|reflexivity].
  apply ltb_units in E as (_ & _ & E). lia.
Qed.

(** Above the cooling threshold is above the threshold that switches the
    heating off, and not below the one that switches it on. *)
Lemma cooling_threshold_above (t x : float) :
  (t + 3.0 <? x)%float = true ->
  (t + 0.5 <? x)%float = true /\ (x <? t - 1.0)%float = false.
Proof.
  intros H. apply ltb_units in H as (Nhigh & Nx & Hlt).
  destruct (SFis_nan (Prim2SF t)) eqn:Nt.
  { rewrite add_nan_l in Nhigh by assumption. discriminate. }
  destruct (add_mono t 0.5 3.0 _ _ _ _ _ _ Prim2SF_half Prim2SF_three) as (Nmid & _ & Hle);
    [rewrite Prim2SF_half, Prim2SF_three; apply Z.leb_le; vm_compute; reflexivity
    |assumption|].
  destruct (sub_add_mono t 1.0 3.0 _ _ _ _ _ _ Prim2SF_one Prim2SF_three) as (_ & _ & Hle');
    [rewrite Prim2SF_one, Prim2SF_three; simpl; lia|assumption|].
  split.
  - apply ltb_units. repeat split; try assumption. lia.
  - destruct (x <? t - 1.0)%float eqn:E; [|reflexivity].
    apply ltb_units in E as (_ & _ & E). lia.
Qed.

End RoundingFacts.

(** ** Running the rules *)

Lemma setting_lookup self k v :
  py_getitem (settings self) k = Return v →
  setting k self = (Return v, self).
Proof. intros H. unfold setting. now rewrite H. Qed.

Lemma bind_run {A B} (m : M A) (k : A → M B) self a self' :
  m self = (Return a, self') → bind m k self = k a self'.
Proof. intros H. unfold bind. now rewrite H. Qed.

Lemma set_state_with_heating_same self :
  set_state (with_heating (heating (state self)) (state self)) self = self.
Proof. destruct self as [? [] ? ? ?]. reflexivity. Qed.

Lemma set_state_with_humidifier_same self :
  set_state (with_humidifier (humidifier (state self)) (state self)) self = self.
Proof. destruct self as [? [] ? ? ?]. reflexivity. Qed.

(** The value the heating rule leaves in [heating]. *)
Lemma control_heating_run self temp target t :
  py_getitem (settings self) "target_temp" = Return target →
  py_float target = Return t →
  control_heating temp self
  = (Return tt,
     set_state (with_heating
                  (if (temp <? t - 1.0)%float then true
                   else if (t + 0.5 <? temp)%float then false
                   else heating (state self))
                  (state self)) self).
Proof.
  intros Hget Hfl.
  unfold control_heating, bind, lift, py_sub_float, py_add_float.
  rewrite (setting_lookup _ _ _ Hget), Hfl.
  destruct (temp <? t - 1.0)%float; [reflexivity|].
  destruct (t + 0.5 <? temp)%float; [reflexivity|].
  unfold ret. now rewrite set_state_with_heating_same.
Qed.

Lemma control_cooling_run self temp target t :
  py_getitem (settings self) "target_temp" = Return target →
  py_float target = Return t →
  control_cooling temp self
  = (Return tt,
     set_state (with_cooling (t + 3.0 <? temp)%float (state self)) self).
Proof.
  intros Hget Hfl.
  unfold control_cooling, bind, lift, py_add_float.
  rewrite (setting_lookup _ _ _ Hget), Hfl.
  now destruct (t + 3.0 <? temp)%float.
Qed.

Lemma control_humidifier_run self hum target t :
  py_getitem (settings self) "target_humidity" = Return target →
  py_float target = Return t →
  control_humidifier hum self
  = (Return tt,
     set_state (with_humidifier
                  (if (hum <? t - 5.0)%float then true
                   else if (t + 3.0 <? hum)%float then false
                   else humidifier (state self))
                  (state self)) self).
Proof.
  intros Hget Hfl.
  unfold control_humidifier, bind, lift, py_sub_float, py_add_float.
  rewrite (setting_lookup _ _ _ Hget), Hfl.
  destruct (hum <? t - 5.0)%float; [reflexivity|].
  destruct (t + 3.0 <? hum)%float; [reflexivity|].
  unfold ret. now rewrite set_state_with_humidifier_same.
Qed.

Lemma control_fan_run self co2 airflow limit minflow nl nm :
  py_getitem (settings self) "co2_limit" = Return limit →
  py_getitem (settings self) "min_airflow" = Return minflow →
  as_number limit = Some nl →
  as_number minflow = Some nm →
  control_fan co2 airflow self
  = (Return tt,
     set_state (with_fan_speed
                  (if number_ltb nl co2 || number_ltb (NFloat airflow) nm
                   then 100 else 50)
                  (state self)) self).
Proof.
  intros Hl Hm Hnl Hnm.
  unfold control_fan, bind, lift, py_gt, py_lt, ret.
  rewrite (setting_lookup _ _ _ Hl), (setting_lookup _ _ _ Hm), Hnl.
  destruct (number_ltb nl co2); [reflexivity|].
  rewrite Hnm. now destruct (number_ltb (NFloat airflow) nm).
Qed.

Lemma control_recuperator_run self temp enabled :
  py_getitem (settings self) "recuperator_enabled" = Return enabled →
  control_recuperator temp self
  = (Return tt,
     set_state (with_recuperator (py_truthy enabled && (5.0 <? temp)%float)
                  (state self)) self).
Proof.
  intros Hget. unfold control_recuperator, bind.
  rewrite (setting_lookup _ _ _ Hget).
  now destruct (py_truthy enabled && (5.0 <? temp)%float).
Qed.

(** ** The heating rule *)

(** C3: with a [target_temp] that converts to the float [t], the heating
    rule succeeds, and afterwards [heating] is on when
    [temp < t - 1.0], off when [temp > t + 0.5], and what it was before
    when neither comparison holds, which covers every [temp] from
    [t - 1.0] to [t + 0.5]. *)
Theorem control_heating_hysteresis self temp target t :
  py_getitem (settings self) "target_temp" = Return target →
  py_float target = Return t →
  ∃ self',
    control_heating temp self = (Return tt, self')
    ∧ ((temp <? t - 1.0)%float = true → heating (state self') = true)
    ∧ ((t + 0.5 <? temp)%float = true → heating (state self') = false)
    ∧ ((temp <? t - 1.0)%float = false → (t + 0.5 <? temp)%float = false →
       heating (state self') = heating (state self)).
Proof.
  intros Hget Hfl. eexists. split; [exact (control_heating_run _ _ _ _ Hget Hfl)|].
  simpl. repeat split.
  - now intros ->.
  - intros Hhigh.
    destruct (temp <? t - 1.0)%float eqn:Hlow.
    + apply heating_thresholds_exclusive in Hlow. congruence.
    + now rewrite Hhigh.
  - now intros -> ->.
Qed.

Lemma control_heating_hysteresis_witness :
  ∃ self',
    control_heating 21.5 fresh_system = (Return tt, self')
    ∧ ((21.5 <? 22.0 - 1.0)%float = true → heating (state self') = true)
    ∧ ((22.0 + 0.5 <? 21.5)%float = true → heating (state self') = false)
    ∧ ((21.5 <? 22.0 - 1.0)%float = false → (22.0 + 0.5 <? 21.5)%float = false →
       heating (state self') = heating (state fresh_system)).
Proof.
  apply (control_heating_hysteresis fresh_system 21.5%float (PyFloat 22.0) 22.0%float);
    reflexivity.
Defined.

(** ** The rules without a dead band *)

(** C4: with a [target_temp] that converts to the float [t], the cooling
    rule succeeds and leaves every field but [cooling] as it was; the new
    [cooling] is the value of [temp > t + 3.0], whatever it was before. *)
Theorem control_cooling_iff self temp target t :
  py_getitem (settings self) "target_temp" = Return target →
  py_float target = Return t →
  control_cooling temp self
    = (Return tt,
       set_state (with_cooling (t + 3.0 <? temp)%float (state self)) self)
  ∧ (cooling (state (snd (control_cooling temp self))) = true
     ↔ (t + 3.0 <? temp)%float = true).
Proof.
  intros Hget Hfl.
  rewrite (control_cooling_run _ _ _ _ Hget Hfl). now split.
Qed.

Lemma control_cooling_iff_witness :
  control_cooling 26.0 fresh_system
    = (Return tt,
       set_state (with_cooling (22.0 + 3.0 <? 26.0)%float
                    (state fresh_system)) fresh_system)
  ∧ (cooling (state (snd (control_cooling 26.0 fresh_system))) = true
     ↔ (22.0 + 3.0 <? 26.0)%float = true).
Proof.
  apply (control_cooling_iff fresh_system 26.0%float (PyFloat 22.0) 22.0%float);
    reflexivity.
Defined.

(** C5: with numbers for [co2_limit] and [min_airflow], the fan rule
    succeeds and leaves [fan_speed] at 50 or at 100; it is 100 exactly when
    [co2 > co2_limit] or [airflow < min_airflow]. *)
Theorem control_fan_two_levels self co2 airflow limit minflow nl nm :
  py_getitem (settings self) "co2_limit" = Return limit →
  py_getitem (settings self) "min_airflow" = Return minflow →
  as_number limit = Some nl →
  as_number minflow = Some nm →
  ∃ self',
    control_fan co2 airflow self = (Return tt, self')
    ∧ (fan_speed (state self') = 50%Z ∨ fan_speed (state self') = 100%Z)
    ∧ (fan_speed (state self') = 100%Z
       ↔ number_ltb nl co2 = true ∨ number_ltb (NFloat airflow) nm = true).
Proof.
  intros Hl Hm Hnl Hnm. eexists.
  split; [exact (control_fan_run _ _ _ _ _ _ _ Hl Hm Hnl Hnm)|].
  rewrite <- orb_true_iff.
  generalize (number_ltb nl co2 || number_ltb (NFloat airflow) nm).
  intros [|]; simpl.
  - split; [now right|now split].
  - split; [now left|split; discriminate].
Qed.

Lemma control_fan_two_levels_witness :
  ∃ self',
    control_fan (NInt 900) 40.0 fresh_system = (Return tt, self')
    ∧ (fan_speed (state self') = 50%Z ∨ fan_speed (state self') = 100%Z)
    ∧ (fan_speed (state self') = 100%Z
       ↔ number_ltb (NInt 800) (NInt 900) = true
         ∨ number_ltb (NFloat 40.0) (NFloat 30.0) = true).
Proof.
  apply (control_fan_two_levels fresh_system (NInt 900) 40.0%float
           (PyInt 800) (PyFloat 30.0)); reflexivity.
Defined.

(** C6: with a [recuperator_enabled] setting, the recuperator rule
    succeeds and leaves every field but [recuperator] as it was; the new
    [recuperator] is on exactly when the setting is true and
    [temp > 5.0], whatever it was before. *)
Theorem control_recuperator_iff self temp enabled :
  py_getitem (settings self) "recuperator_enabled" = Return enabled →
  control_recuperator temp self
    = (Return tt,
       set_state (with_recuperator (py_truthy enabled && (5.0 <? temp)%float)
                    (state self)) self)
  ∧ (recuperator (state (snd (control_recuperator temp self))) = true
     ↔ py_truthy enabled = true ∧ (5.0 <? temp)%float = true).
Proof.
  intros Hget. rewrite (control_recuperator_run _ _ _ Hget).
  split; [reflexivity|]. simpl. apply andb_true_iff.
Qed.

Lemma control_recuperator_iff_witness :
  control_recuperator 18.0 fresh_system
    = (Return tt,
       set_state (with_recuperator
                    (py_truthy (PyBool true) && (5.0 <? 18.0)%float)
                    (state fresh_system)) fresh_system)
  ∧ (recuperator (state (snd (control_recuperator 18.0 fresh_system))) = true
     ↔ py_truthy (PyBool true) = true ∧ (5.0 <? 18.0)%float = true).
Proof.
  apply (control_recuperator_iff fresh_system 18.0%float (PyBool true)).
  reflexivity.
Defined.

(** ** A whole cycle *)

(** C10: when the five settings have the types the rules need, a cycle
    runs to its end and does not leave [heating] and [cooling] both on:
    [cooling] on means [temp > t + 3.0], and then [temp > t + 0.5] too, so
    the heating rule has switched [heating] off. *)
Theorem update_system_not_heating_and_cooling self rnd :
  settings_ok (settings self) = true →
  ∃ self',
    update_system rnd self = (Return tt, self')
    ∧ ¬ (heating (state self') = true ∧ cooling (state self') = true).
Proof.
  unfold settings_ok. intros Hok.
  destruct (py_getitem (settings self) "target_temp") as [target|] eqn:Ht;
    [|discriminate].
  destruct (py_getitem (settings self) "target_humidity") as [target_h|] eqn:Hh;
    [|discriminate].
  destruct (py_getitem (settings self) "co2_limit") as [limit|] eqn:Hl;
    [|discriminate].
  destruct (py_getitem (settings self) "min_airflow") as [minflow|] eqn:Hm;
    [|discriminate].
  destruct (py_getitem (settings self) "recuperator_enabled") as [enabled|] eqn:He;
    [|discriminate].
  destruct (py_float target) as [t|] eqn:Hft; [|discriminate].
  destruct (py_float target_h) as [th|] eqn:Hfh; [|discriminate].
  destruct (as_number limit) as [nl|] eqn:Hnl; [|discriminate].
  destruct (as_number minflow) as [nm|] eqn:Hnm; [|discriminate].
  clear Hok.
  unfold update_system.
  set (reading := read_sensors rnd self).
  rewrite (bind_run (gets (read_sensors rnd)) _ self reading self eq_refl).
  rewrite (bind_run (modify (set_sensor_data reading)) _ self tt
             (set_sensor_data reading self) eq_refl).
  cbv zeta.
  erewrite bind_run by (apply (control_heating_run _ _ target t); assumption).
  erewrite bind_run by (apply (control_cooling_run _ _ target t); assumption).
  erewrite bind_run by (apply (control_humidifier_run _ _ target_h th); assumption).
  erewrite bind_run
    by (apply (control_fan_run _ _ _ limit minflow nl nm); assumption).
  rewrite (control_recuperator_run _ _ enabled) by assumption.
  eexists. split; [reflexivity|].
  cbn [state set_state heating cooling with_heating with_cooling
       with_humidifier with_fan_speed with_recuperator set_sensor_data].
  intros [Hheat Hcool].
  apply cooling_threshold_above in Hcool as [Hoff Hnot_on].
  rewrite Hnot_on, Hoff in Hheat. discriminate.
Qed.

Lemma update_system_not_heating_and_cooling_witness :
  ∃ self',
    update_system
      {| uniform_temperature := 4.5; uniform_humidity := 0.0;
         randint_co2 := 0; uniform_airflow := 0.0 |} fresh_system
    = (Return tt, self')
    ∧ ¬ (heating (state self') = true ∧ cooling (state self') = true).
Proof.
  apply (update_system_not_heating_and_cooling fresh_system). reflexivity.
Defined.

(** The two scenarios of the specification, on the default settings. *)
Example scenario_cold_and_stuffy :
  state (snd (update_system
                {| uniform_temperature := -2.0; uniform_humidity := 5.0;
                   randint_co2 := 300; uniform_airflow := -20.0 |}
                fresh_system))
  = {| heating := true; cooling := false; humidifier := false;
       fan_speed := 100; recuperator := true |}.
Proof. vm_compute. reflexivity. Qed.

Example scenario_hot :
  state (snd (update_system
                {| uniform_temperature := 6.0; uniform_humidity := 5.0;
                   randint_co2 := -100; uniform_airflow := 0.0 |}
                fresh_system))
  = {| heating := false; cooling := true; humidifier := false;
       fan_speed := 50; recuperator := true |}.
Proof. vm_compute. reflexivity. Qed.

(** ** Shutdown *)

Lemma loop_interrupt {text} (json_dumps : pyval → text) script :
  In Interrupt script →
  ∀ self w, ∃ r self' w', loop json_dumps script self w = (Some r, self', w').
Proof.
  induction script as [|ev script IH]; intros Hin self w; [destruct Hin|].
  simpl. destruct (running self); [|eauto].
  destruct ev as [rnd| |data].
  - destruct Hin as [E|Hin]; [discriminate|].
    destruct (update_system rnd self) as [[[]|e] self']; [now apply IH|eauto].
  - eauto.
  - destruct Hin as [E|Hin]; [discriminate|].
    destruct (update_settings json_dumps data self w) as [[r self'] w'].
    now apply IH.
Qed.

(** C7: once the user interrupts the loop, [run] comes to its end, and
    whatever the actuators were before, the state it leaves is
    [SystemState()]: everything off and the fan at 0. *)
Theorem run_interrupt_all_off {text} (json_dumps : pyval → text) script self w :
  In Interrupt script →
  ∃ r self' w',
    run json_dumps script self w = (Some r, self', w')
    ∧ state self' = SystemState_default.
Proof.
  intros Hin.
  destruct (loop_interrupt json_dumps script Hin self w) as (r & self' & w' & E).
  unfold run. rewrite E. eauto.
Qed.

Lemma run_interrupt_all_off_witness :
  ∃ r self' w',
    run document_dumps
      [Iteration {| uniform_temperature := -2.0; uniform_humidity := 5.0;
                    randint_co2 := 300; uniform_airflow := -20.0 |};
       Interrupt]
      fresh_system {| settings_json := None |}
    = (Some r, self', w')
    ∧ state self' = SystemState_default.
Proof.
  apply (run_interrupt_all_off document_dumps). simpl. auto.
Defined.

(** ** The settings file *)

(** C1, the part the code keeps: without a settings file [load_settings]
    returns the default settings and does not raise. *)
Theorem load_settings_absent {text}
    (json_loads : text → option pyval) (w : world text) :
  settings_json w = None →
  load_settings json_loads w = Return default_settings.
Proof. unfold load_settings. now intros ->. Qed.

Lemma load_settings_absent_witness :
  load_settings document_loads {| settings_json := None |}
  = Return default_settings.
Proof.
  apply (load_settings_absent document_loads {| settings_json := None |}).
  reflexivity.
Defined.

(** With a settings file, [load_settings] is [json.load]: the parsed
    value, or its [JSONDecodeError], which no handler catches. *)
Lemma load_settings_present {text}
    (json_loads : text → option pyval) (w : world text) contents :
  settings_json w = Some contents →
  load_settings json_loads w
  = match json_loads contents with
    | Some v => Return v
    | None => Raise JSONDecodeError
    end.
Proof. unfold load_settings. now intros ->. Qed.

(** C1 as stated fails: a settings file that does not parse makes
    [load_settings] raise instead of returning the defaults. *)
Lemma load_settings_unparsable_counterexample :
  document_loads Malformed = None
  ∧ load_settings document_loads {| settings_json := Some Malformed |}
    = Raise JSONDecodeError
  ∧ load_settings document_loads {| settings_json := Some Malformed |}
    ≠ Return default_settings.
Proof. repeat split. discriminate. Qed.

Lemma load_after_save {text} (json_dumps : pyval → text)
    (json_loads : text → option pyval) self w :
  (∀ v, json_loads (json_dumps v) = Some v) →
  load_settings json_loads (save_settings json_dumps self w)
  = Return (settings self).
Proof. intros Hrt. unfold load_settings, save_settings. simpl. now rewrite Hrt. Qed.

(** C9: when [json.load] reads back what [json.dump] wrote, saving the
    settings and loading them again returns the settings that were saved,
    so every field reads the same. *)
Theorem save_then_load {text} (json_dumps : pyval → text)
    (json_loads : text → option pyval) self w :
  (∀ v, json_loads (json_dumps v) = Some v) →
  ∃ v,
    load_settings json_loads (save_settings json_dumps self w) = Return v
    ∧ v = settings self
    ∧ ∀ k, py_getitem v k = py_getitem (settings self) k.
Proof.
  intros Hrt. exists (settings self).
  split; [now apply load_after_save|]. now split.
Qed.

Lemma save_then_load_witness :
  ∃ v,
    load_settings document_loads
      (save_settings document_dumps fresh_system {| settings_json := None |})
    = Return v
    ∧ v = settings fresh_system
    ∧ ∀ k, py_getitem v k = py_getitem (settings fresh_system) k.
Proof.
  apply (save_then_load document_dumps document_loads).
  intros v. reflexivity.
Defined.

(** ** The settings request *)

(** The third scenario of the specification: after a patch that raises
    [co2_limit] to 1000, a reading of 900 ppm leaves the fan at 50. *)
Example scenario_raised_co2_limit :
  let out := update_settings document_dumps {["co2_limit" := PyInt 1000]}
               fresh_system {| settings_json := None |} in
  fan_speed (state (snd (control_fan (NInt 900) 40.0 (snd (fst out))))) = 50%Z.
Proof. vm_compute. reflexivity. Qed.

(** C2, as the code has it: on settings that are a dictionary the request
    succeeds, every key of the patch, known or not, is set to the patch's
    value in memory and in the file, and the keys the patch does not name
    keep their values. *)
Theorem update_settings_merges_every_key {text} (json_dumps : pyval → text)
    (data d : gmap string pyval) self w :
  settings self = PyDict d →
  update_settings json_dumps data self w
  = (Return ok_response,
     set_settings (PyDict (data ∪ d)) self,
     {| settings_json := Some (json_dumps (PyDict (data ∪ d))) |})
  ∧ (∀ k v, data !! k = Some v → (data ∪ d) !! k = Some v)
  ∧ (∀ k, data !! k = None → (data ∪ d) !! k = d !! k).
Proof.
  intros Hd. split; [|split].
  - unfold update_settings, dict_update. now rewrite Hd.
  - intros k v Hk. now apply lookup_union_Some_l.
  - intros k Hk. now apply lookup_union_r.
Qed.

Lemma update_settings_merges_every_key_witness :
  update_settings document_dumps {["co2_limit" := PyInt 1000]}
    fresh_system {| settings_json := None |}
  = (Return ok_response,
     set_settings (PyDict ({["co2_limit" := PyInt 1000]} ∪ default_dict))
       fresh_system,
     {| settings_json :=
          Some (document_dumps
                  (PyDict ({["co2_limit" := PyInt 1000]} ∪ default_dict))) |})
  ∧ (∀ k v, ({["co2_limit" := PyInt 1000]} : gmap string pyval) !! k = Some v →
       ({["co2_limit" := PyInt 1000]} ∪ default_dict) !! k = Some v)
  ∧ (∀ k, ({["co2_limit" := PyInt 1000]} : gmap string pyval) !! k = None →
       ({["co2_limit" := PyInt 1000]} ∪ default_dict) !! k = default_dict !! k).
Proof.
  apply (update_settings_merges_every_key document_dumps). reflexivity.
Defined.

(** C2 as stated fails: a key that is not one of the five settings is
    stored in memory and written to the file. *)
Lemma update_settings_unknown_key_counterexample :
  let out := update_settings document_dumps {["mode" := PyStr "turbo"]}
               fresh_system {| settings_json := None |} in
  fst (fst out) = Return ok_response
  ∧ py_getitem (settings (snd (fst out))) "mode" = Return (PyStr "turbo")
  ∧ settings_json (snd out) = Some (Document (settings (snd (fst out)))).
Proof. vm_compute. repeat split. Qed.

(** C8: when [json.load] reads back what [json.dump] wrote, an empty
    patch on settings that are a dictionary succeeds, leaves the object as
    it was, and writes the settings to the file, from which they load
    again. *)
Theorem update_settings_empty_patch {text} (json_dumps : pyval → text)
    (json_loads : text → option pyval) (d : gmap string pyval) self w :
  (∀ v, json_loads (json_dumps v) = Some v) →
  settings self = PyDict d →
  update_settings json_dumps ∅ self w
  = (Return ok_response, self,
     {| settings_json := Some (json_dumps (settings self)) |})
  ∧ load_settings json_loads (snd (update_settings json_dumps ∅ self w))
    = Return (settings self).
Proof.
  intros Hrt Hd.
  assert (update_settings json_dumps ∅ self w
          = (Return ok_response, self,
             {| settings_json := Some (json_dumps (settings self)) |})) as E.
  { unfold update_settings, dict_update. rewrite Hd.
    rewrite (left_id_L ∅ (∪) d).
    destruct self; simpl in *; subst; reflexivity. }
  split; [exact E|].
  rewrite E. unfold load_settings. simpl. now rewrite Hrt.
Qed.

Lemma update_settings_empty_patch_witness :
  update_settings document_dumps ∅ fresh_system {| settings_json := None |}
  = (Return ok_response, fresh_system,
     {| settings_json := Some (document_dumps (settings fresh_system)) |})
  ∧ load_settings document_loads
      (snd (update_settings document_dumps ∅ fresh_system
              {| settings_json := None |}))
    = Return (settings fresh_system).
Proof.
  apply (update_settings_empty_patch document_dumps document_loads default_dict).
  - intros v. reflexivity.
  - reflexivity.
Defined.

(** * Further properties *)

(** ** More on binary64 rounding *)
Section RoundingMore.
Local Open Scope Z_scope.

(** A number of units that is a double rounds to itself. *)
Lemma rnd_val_representable s m e :
  valid_binary (S754_finite s m e) = true ->
  rnd_val (Zpos m * 2 ^ (e + 1074)) = Zpos m * 2 ^ (e + 1074).
Proof.
  intros V. pose proof (units_finite_bounds _ _ _ V) as Hb.
  apply valid_finite_inv in V as (He & Hm & Hn).
  pose proof (digits2_pos_bounds m) as Hd.
  unfold rnd_val. rewrite Z.log2_mul_pow2, log2_digits' by lia.
  set (d := Zpos (digits2_pos m)) in *.
  assert (0 < d) by (unfold d; lia). clearbody d.
  assert (d <= 53).
  { destruct (Z.le_gt_cases d 53); [assumption|].
    assert (2 ^ 53 <= 2 ^ (d - 1)) by (apply pow2_le; lia). lia. }
  assert ((if e + 1074 + (d - 1) + 1 - 53 <=? 0 then Zpos m * 2 ^ (e + 1074)
           else rne_shift (e + 1074 + (d - 1) + 1 - 53) (Zpos m * 2 ^ (e + 1074))
                * 2 ^ (e + 1074 + (d - 1) + 1 - 53))
          = Zpos m * 2 ^ (e + 1074)) as ->.
  { destruct (Z.leb_spec (e + 1074 + (d - 1) + 1 - 53) 0) as [L|G]; [reflexivity|].
    destruct Hn as [->|Hn]; [lia|].
    assert (d = 53).
    { destruct (Z.eq_dec d 53); [assumption|].
      assert (2 ^ d <= 2 ^ 52) by (apply pow2_le; lia). lia. }
    subst d. replace (e + 1074 + (53 - 1) + 1 - 53) with (e + 1074) by lia.
    now rewrite rne_shift_exact by lia. }
  apply Z.min_r. lia.
Qed.

Lemma Zrnd_representable s m e :
  valid_binary (S754_finite s m e) = true ->
  Zrnd (SFunits (S754_finite s m e)) = SFunits (S754_finite s m e).
Proof.
  intros V. pose proof (units_finite_bounds _ _ _ V) as Hb.
  pose proof (rnd_val_representable s m e V) as Hr.
  unfold Zrnd, SFunits. destruct s; simpl cond_Zopp.
  - destruct (Z.ltb_spec 0 (- (Zpos m * 2 ^ (e + 1074)))); [lia|].
    destruct (Z.ltb_spec (- (Zpos m * 2 ^ (e + 1074))) 0); [|lia].
    rewrite Z.opp_involutive, Hr. reflexivity.
  - destruct (Z.ltb_spec 0 (Zpos m * 2 ^ (e + 1074))); [|lia]. exact Hr.
Qed.

(** The sum of two floats that are zero or finite is their exact sum,
    rounded. *)
Lemma SFadd_units x y :
  valid_binary x = true -> valid_binary y = true ->
  SFis_finite x = true -> SFis_finite y = true ->
  SFis_nan (SFadd prec emax x y) = false
  /\ SFunits (SFadd prec emax x y) = Zrnd (SFunits x + SFunits y).
Proof.
  intros Vx Vy Fx Fy.
  destruct x as [sx|sx| |sx mx ex], y as [sy|sy| |sy my ey]; try discriminate.
  - destruct sx, sy; split; reflexivity.
  - split; [reflexivity|]. cbn [SFadd]. rewrite Z.add_0_l.
    symmetry. now apply Zrnd_representable.
  - split; [reflexivity|]. cbn [SFadd]. change (SFunits (S754_zero sy)) with 0.
    rewrite Z.add_0_r. symmetry. now apply Zrnd_representable.
  - split; [|now apply SFadd_finite_units].
    apply valid_finite_inv in Vx as (Hex & _ & _).
    apply valid_finite_inv in Vy as (Hey & _ & _).
    apply SFis_nan_binary_normalize. change emin with (-1074). lia.
Qed.

(** [<=?] on primitive floats, in units. *)
Lemma leb_units (x y : float) :
  (x <=? y)%float = true
  <-> SFis_nan (Prim2SF x) = false /\ SFis_nan (Prim2SF y) = false
      /\ SFunits (Prim2SF x) <= SFunits (Prim2SF y).
Proof.
  rewrite leb_spec. unfold SFleb.
  destruct (SFis_nan (Prim2SF x)) eqn:Nx.
  { destruct (Prim2SF x); try discriminate. rewrite SFcompare_nan_l.
    split; [discriminate|intros (? & _); discriminate]. }
  destruct (SFis_nan (Prim2SF y)) eqn:Ny.
  { destruct (Prim2SF y); try discriminate. rewrite SFcompare_nan_r.
    split; [discriminate|intros (_ & ? & _); discriminate]. }
  rewrite SFcompare_units by (try apply Prim2SF_valid; assumption).
  destruct (Z.compare_spec (SFunits (Prim2SF x)) (SFunits (Prim2SF y))); split;
    try discriminate; try (intros (_ & _ & ?); lia); intros _;
    (split; [reflexivity|split; [reflexivity|lia]]).
Qed.

(** A float between two finite floats is zero or finite. *)
Lemma between_finite (lo hi u : float) :
  SFis_finite (Prim2SF lo) = true -> SFis_finite (Prim2SF hi) = true ->
  (lo <=? u)%float = true -> (u <=? hi)%float = true ->
  SFis_finite (Prim2SF u) = true.
Proof.
  intros Flo Fhi Hlo Hhi.
  apply leb_units in Hlo as (_ & Nu & Hlo).
  apply leb_units in Hhi as (_ & _ & Hhi).
  pose proof (Prim2SF_valid lo) as Vlo. pose proof (Prim2SF_valid hi) as Vhi.
  assert (0 < overflow_units) by (apply pow2_pos; lia).
  assert (- overflow_units < SFunits (Prim2SF lo)).
  { destruct (Prim2SF lo) as [?|?| |s m e]; try discriminate; simpl; [lia|].
    pose proof (units_finite_bounds _ _ _ Vlo). destruct s; simpl; lia. }
  assert (SFunits (Prim2SF hi) < overflow_units).
  { destruct (Prim2SF hi) as [?|?| |s m e]; try discriminate; simpl; [lia|].
    pose proof (units_finite_bounds _ _ _ Vhi). destruct s; simpl; lia. }
  destruct (Prim2SF u) as [?|s| |? ? ?]; try reflexivity; try discriminate.
  destruct s; simpl in *; lia.
Qed.

(** Adding to a finite float is monotone: from [lo <= u <= hi] to
    [x + lo <= x + u <= x + hi]. *)
Lemma add_between (x lo hi u : float) :
  SFis_finite (Prim2SF x) = true ->
  SFis_finite (Prim2SF lo) = true -> SFis_finite (Prim2SF hi) = true ->
  (lo <=? u)%float = true -> (u <=? hi)%float = true ->
  (x + lo <=? x + u)%float = true /\ (x + u <=? x + hi)%float = true.
Proof.
  intros Fx Flo Fhi Hlo Hhi.
  pose proof (between_finite lo hi u Flo Fhi Hlo Hhi) as Fu.
  apply leb_units in Hlo as (_ & _ & Hlo).
  apply leb_units in Hhi as (_ & _ & Hhi).
  pose proof (SFadd_units _ _ (Prim2SF_valid x) (Prim2SF_valid lo) Fx Flo) as [N1 E1].
  pose proof (SFadd_units _ _ (Prim2SF_valid x) (Prim2SF_valid u) Fx Fu) as [N2 E2].
  pose proof (SFadd_units _ _ (Prim2SF_valid x) (Prim2SF_valid hi) Fx Fhi) as [N3 E3].
  split; apply leb_units; rewrite !add_spec; unfold SF64add;
    (split; [assumption|split; [assumption|]]).
  - rewrite E1, E2. apply Zrnd_mono. lia.
  - rewrite E2, E3. apply Zrnd_mono. lia.
Qed.

(** The order of floats is transitive, and [<=] excludes [>]. *)
Lemma ltb_leb_trans (x y z : float) :
  (x <? y)%float = true -> (y <=? z)%float = true -> (x <? z)%float = true.
Proof.
  intros H1 H2. apply ltb_units in H1 as (? & ? & ?).
  apply leb_units in H2 as (? & ? & ?).
  apply ltb_units. repeat split; try assumption. lia.
Qed.

Lemma leb_not_ltb (x y : float) :
  (x <=? y)%float = true -> (y <? x)%float = false.
Proof.
  intros H. apply leb_units in H as (? & ? & ?).
  destruct (y <? x)%float eqn:E; [|reflexivity].
  apply ltb_units in E as (_ & _ & E). lia.
Qed.

Lemma Prim2SF_five : Prim2SF 5.0 = S754_finite false 5629499534213120 (-50).
Proof. reflexivity. Qed.

(** The two comparisons of the humidifier rule cannot both hold. *)
Lemma humidifier_thresholds_exclusive (t x : float) :
  (x <? t - 5.0)%float = true -> (t + 3.0 <? x)%float = false.
Proof.
  intros H. apply ltb_units in H as (Nx & Nlow & Hlt).
  destruct (SFis_nan (Prim2SF t)) eqn:Nt.
  { rewrite sub_nan_l in Nlow by assumption. discriminate. }
  destruct (sub_add_mono t 5.0 3.0 _ _ _ _ _ _ Prim2SF_five Prim2SF_three)
    as (_ & _ & Hle);
    [rewrite Prim2SF_five, Prim2SF_three; simpl; lia|assumption|].
  destruct (t + 3.0 <? x)%float eqn:E; [|reflexivity].
  apply ltb_units in E as (_ & _ & E). lia.
Qed.

End RoundingMore.

(** ** More on the rules *)

Lemma set_state_with_cooling_same self :
  set_state (with_cooling (cooling (state self)) (state self)) self = self.
Proof. destruct self as [? [] ? ? ?]. reflexivity. Qed.

Lemma set_state_with_fan_speed_same self :
  set_state (with_fan_speed (fan_speed (state self)) (state self)) self = self.
Proof. destruct self as [? [] ? ? ?]. reflexivity. Qed.

Lemma set_state_with_recuperator_same self :
  set_state (with_recuperator (recuperator (state self)) (state self)) self = self.
Proof. destruct self as [? [] ? ? ?]. reflexivity. Qed.

Lemma bind_snd {A B} (m : M A) (k : A → M B) self :
  snd (bind m k self)
  = match m self with
    | (Return a, self') => snd (k a self')
    | (Raise _, self') => self'
    end.
Proof. unfold bind. now destruct (m self) as [[a|e] self']. Qed.

(** The humidifier rule, as the heating rule: on below [t - 5.0], off
    above [t + 3.0], unchanged when neither comparison holds. *)
Theorem control_humidifier_hysteresis self hum target t :
  py_getitem (settings self) "target_humidity" = Return target →
  py_float target = Return t →
  ∃ self',
    control_humidifier hum self = (Return tt, self')
    ∧ ((hum <? t - 5.0)%float = true → humidifier (state self') = true)
    ∧ ((t + 3.0 <? hum)%float = true → humidifier (state self') = false)
    ∧ ((hum <? t - 5.0)%float = false → (t + 3.0 <? hum)%float = false →
       humidifier (state self') = humidifier (state self)).
Proof.
  intros Hget Hfl. eexists.
  split; [exact (control_humidifier_run _ _ _ _ Hget Hfl)|].
  simpl. repeat split.
  - now intros ->.
  - intros Hhigh.
    destruct (hum <? t - 5.0)%float eqn:Hlow.
    + apply humidifier_thresholds_exclusive in Hlow. congruence.
    + now rewrite Hhigh.
  - now intros -> ->.
Qed.

Lemma control_humidifier_hysteresis_witness :
  ∃ self',
    control_humidifier 40.0 fresh_system = (Return tt, self')
    ∧ ((40.0 <? 50.0 - 5.0)%float = true → humidifier (state self') = true)
    ∧ ((50.0 + 3.0 <? 40.0)%float = true → humidifier (state self') = false)
    ∧ ((40.0 <? 50.0 - 5.0)%float = false → (50.0 + 3.0 <? 40.0)%float = false →
       humidifier (state self') = humidifier (state fresh_system)).
Proof.
  apply (control_humidifier_hysteresis fresh_system 40.0%float
           (PyFloat 50.0) 50.0%float); reflexivity.
Defined.

Lemma rules_write_one_field self temp hum co2 airflow :
  (∃ b, snd (control_heating temp self)
        = set_state (with_heating b (state self)) self)
  ∧ (∃ b, snd (control_cooling temp self)
          = set_state (with_cooling b (state self)) self)
  ∧ (∃ b, snd (control_humidifier hum self)
          = set_state (with_humidifier b (state self)) self)
  ∧ (∃ n, (n = fan_speed (state self) ∨ n = 50%Z ∨ n = 100%Z)
          ∧ snd (control_fan co2 airflow self)
            = set_state (with_fan_speed n (state self)) self)
  ∧ (∃ b, snd (control_recuperator temp self)
          = set_state (with_recuperator b (state self)) self).
Proof.
  repeat split.
  - unfold control_heating, bind, setting, lift, py_sub_float, py_add_float.
    destruct (py_getitem (settings self) "target_temp") as [target|e];
      [|exists (heating (state self)); symmetry; apply set_state_with_heating_same].
    destruct (py_float target) as [t|e];
      [|exists (heating (state self)); symmetry; apply set_state_with_heating_same].
    destruct (temp <? t - 1.0)%float; [now exists true|].
    destruct (t + 0.5 <? temp)%float; [now exists false|].
    exists (heating (state self)); symmetry; apply set_state_with_heating_same.
  - unfold control_cooling, bind, setting, lift, py_add_float.
    destruct (py_getitem (settings self) "target_temp") as [target|e];
      [|exists (cooling (state self)); symmetry; apply set_state_with_cooling_same].
    destruct (py_float target) as [t|e];
      [|exists (cooling (state self)); symmetry; apply set_state_with_cooling_same].
    destruct (t + 3.0 <? temp)%float; [now exists true|now exists false].
  - unfold control_humidifier, bind, setting, lift, py_sub_float, py_add_float.
    destruct (py_getitem (settings self) "target_humidity") as [target|e];
      [|exists (humidifier (state self)); symmetry;
        apply set_state_with_humidifier_same].
    destruct (py_float target) as [t|e];
      [|exists (humidifier (state self)); symmetry;
        apply set_state_with_humidifier_same].
    destruct (hum <? t - 5.0)%float; [now exists true|].
    destruct (t + 3.0 <? hum)%float; [now exists false|].
    exists (humidifier (state self)); symmetry;
      apply set_state_with_humidifier_same.
  - unfold control_fan, bind, setting, lift, py_gt, py_lt, ret.
    assert (∃ n, (n = fan_speed (state self) ∨ n = 50%Z ∨ n = 100%Z)
                 ∧ self = set_state (with_fan_speed n (state self)) self) as Hsame.
    { exists (fan_speed (state self)). split; [now left|].
      symmetry; apply set_state_with_fan_speed_same. }
    destruct (py_getitem (settings self) "co2_limit") as [limit|e]; [|exact Hsame].
    destruct (py_getitem (settings self) "min_airflow") as [minflow|e];
      [|exact Hsame].
    destruct (as_number limit) as [nl|]; [|exact Hsame].
    destruct (number_ltb nl co2); [exists 100%Z; split; [now right; right|reflexivity]|].
    destruct (as_number minflow) as [nm|]; [|exact Hsame].
    destruct (number_ltb (NFloat airflow) nm);
      [exists 100%Z; split; [now right; right|reflexivity]
      |exists 50%Z; split; [now right; left|reflexivity]].
  - unfold control_recuperator, bind, setting.
    destruct (py_getitem (settings self) "recuperator_enabled") as [enabled|e];
      [|exists (recuperator (state self)); symmetry;
        apply set_state_with_recuperator_same].
    destruct (py_truthy enabled && (5.0 <? temp)%float);
      [now exists true|now exists false].
Qed.

(** Each rule writes one field of the state and nothing else of the
    object, whether it returns or raises; the fan rule leaves the speed
    as it was or sets 50 or 100. *)
Theorem each_rule_owns_one_field self temp hum co2 airflow :
  (∃ b, snd (control_heating temp self)
        = set_state (with_heating b (state self)) self)
  ∧ (∃ b, snd (control_cooling temp self)
          = set_state (with_cooling b (state self)) self)
  ∧ (∃ b, snd (control_humidifier hum self)
          = set_state (with_humidifier b (state self)) self)
  ∧ (∃ n, (n = fan_speed (state self) ∨ n = 50%Z ∨ n = 100%Z)
          ∧ snd (control_fan co2 airflow self)
            = set_state (with_fan_speed n (state self)) self)
  ∧ (∃ b, snd (control_recuperator temp self)
          = set_state (with_recuperator b (state self)) self).
Proof. apply rules_write_one_field. Qed.

(** ** More on a whole cycle *)

Lemma update_system_frame self rnd :
  let self' := snd (update_system rnd self) in
  settings self' = settings self
  ∧ sensor_data self' = read_sensors rnd self
  ∧ running self' = running self
  ∧ simulate_sensors self' = simulate_sensors self.
Proof.
  cbv zeta. unfold update_system.
  set (reading := read_sensors rnd self).
  rewrite (bind_run (gets (read_sensors rnd)) _ self reading self eq_refl).
  rewrite (bind_run (modify (set_sensor_data reading)) _ self tt
             (set_sensor_data reading self) eq_refl).
  cbv zeta.
  set (s1 := set_sensor_data reading self).
  assert (settings s1 = settings self ∧ sensor_data s1 = reading
          ∧ running s1 = running self
          ∧ simulate_sensors s1 = simulate_sensors self) as H1 by now repeat split.
  clearbody s1 reading.
  destruct (rules_write_one_field s1 (temperature reading) (humidity reading)
              (co2 reading) (airflow reading)) as ((b1 & E1) & _).
  rewrite bind_snd.
  destruct (control_heating (temperature reading) s1) as [[[]|e] s2];
    simpl in E1; subst s2; [|exact H1].
  set (s2 := set_state _ s1) in *.
  assert (settings s2 = settings self ∧ sensor_data s2 = reading
          ∧ running s2 = running self
          ∧ simulate_sensors s2 = simulate_sensors self) as H2 by exact H1.
  clearbody s2. clear H1 s1 b1.
  destruct (rules_write_one_field s2 (temperature reading) (humidity reading)
              (co2 reading) (airflow reading)) as (_ & (b2 & E2) & _).
  rewrite bind_snd.
  destruct (control_cooling (temperature reading) s2) as [[[]|e] s3];
    simpl in E2; subst s3; [|exact H2].
  set (s3 := set_state _ s2) in *.
  assert (settings s3 = settings self ∧ sensor_data s3 = reading
          ∧ running s3 = running self
          ∧ simulate_sensors s3 = simulate_sensors self) as H3 by exact H2.
  clearbody s3. clear H2 s2 b2.
  destruct (rules_write_one_field s3 (temperature reading) (humidity reading)
              (co2 reading) (airflow reading)) as (_ & _ & (b3 & E3) & _).
  rewrite bind_snd.
  destruct (control_humidifier (humidity reading) s3) as [[[]|e] s4];
    simpl in E3; subst s4; [|exact H3].
  set (s4 := set_state _ s3) in *.
  assert (settings s4 = settings self ∧ sensor_data s4 = reading
          ∧ running s4 = running self
          ∧ simulate_sensors s4 = simulate_sensors self) as H4 by exact H3.
  clearbody s4. clear H3 s3 b3.
  destruct (rules_write_one_field s4 (temperature reading) (humidity reading)
              (co2 reading) (airflow reading)) as (_ & _ & _ & (n & _ & E4) & _).
  rewrite bind_snd.
  destruct (control_fan (co2 reading) (airflow reading) s4) as [[[]|e] s5];
    simpl in E4; subst s5; [|exact H4].
  set (s5 := set_state _ s4) in *.
  assert (settings s5 = settings self ∧ sensor_data s5 = reading
          ∧ running s5 = running self
          ∧ simulate_sensors s5 = simulate_sensors self) as H5 by exact H4.
  clearbody s5. clear H4 s4 n.
  destruct (rules_write_one_field s5 (temperature reading) (humidity reading)
              (co2 reading) (airflow reading)) as (_ & _ & _ & _ & (b5 & E5)).
  rewrite E5. exact H5.
Qed.

(** A cycle stores the new reading and, whether it returns or raises,
    leaves the settings and the two flags of the object as they were. *)
Theorem update_system_keeps_settings self rnd :
  let self' := snd (update_system rnd self) in
  settings self' = settings self
  ∧ sensor_data self' = read_sensors rnd self
  ∧ running self' = running self
  ∧ simulate_sensors self' = simulate_sensors self.
Proof. apply update_system_frame. Qed.

Lemma update_system_start self rnd :
  update_system rnd self
  = (let reading := read_sensors rnd self in
     (control_heating (temperature reading);;
      control_cooling (temperature reading);;
      control_humidifier (humidity reading);;
      control_fan (co2 reading) (airflow reading);;
      control_recuperator (temperature reading))
       (set_sensor_data reading self)).
Proof. reflexivity. Qed.

Lemma control_heating_raises self temp e :
  (py_getitem (settings self) "target_temp" = Raise e
   ∨ ∃ target, py_getitem (settings self) "target_temp" = Return target
               ∧ py_float target = Raise e) →
  control_heating temp self = (Raise e, self).
Proof.
  unfold control_heating, bind, setting, lift, py_sub_float.
  intros [->|(target & -> & ->)]; reflexivity.
Qed.

Lemma update_system_bad_target_temp_raise self rnd e :
  (py_getitem (settings self) "target_temp" = Raise e
   ∨ ∃ target, py_getitem (settings self) "target_temp" = Return target
               ∧ py_float target = Raise e) →
  update_system rnd self
  = (Raise e, set_sensor_data (read_sensors rnd self) self).
Proof.
  intros H. rewrite update_system_start. cbv zeta.
  unfold bind at 1.
  now rewrite (control_heating_raises (set_sensor_data _ self) _ e H).
Qed.

(** When [target_temp] is missing or is not a number, a cycle stores the
    reading and raises the error of the first rule; no actuator has
    changed. *)
Theorem update_system_bad_target_temp self rnd e :
  (py_getitem (settings self) "target_temp" = Raise e
   ∨ ∃ target, py_getitem (settings self) "target_temp" = Return target
               ∧ py_float target = Raise e) →
  update_system rnd self
  = (Raise e, set_sensor_data (read_sensors rnd self) self).
Proof.
  apply update_system_bad_target_temp_raise.
Qed.

Lemma update_system_bad_target_temp_witness :
  update_system
    {| uniform_temperature := 1.0; uniform_humidity := 0.0;
       randint_co2 := 0; uniform_airflow := 0.0 |}
    (set_settings (PyDict {["target_temp" := PyStr "warm"]}) fresh_system)
  = (Raise TypeError,
     set_sensor_data
       (read_sensors
          {| uniform_temperature := 1.0; uniform_humidity := 0.0;
             randint_co2 := 0; uniform_airflow := 0.0 |}
          (set_settings (PyDict {["target_temp" := PyStr "warm"]}) fresh_system))
       (set_settings (PyDict {["target_temp" := PyStr "warm"]}) fresh_system)).
Proof.
  apply update_system_bad_target_temp.
  right. exists (PyStr "warm"). split; reflexivity.
Defined.

(** A cycle is not atomic: when [target_temp] is a number but
    [target_humidity] is missing or is not one, the cycle raises after
    the heating and cooling rules have written their fields; humidifier,
    fan and recuperator are as before. *)
Theorem update_system_partial_update self rnd target t e :
  py_getitem (settings self) "target_temp" = Return target →
  py_float target = Return t →
  (py_getitem (settings self) "target_humidity" = Raise e
   ∨ ∃ th, py_getitem (settings self) "target_humidity" = Return th
           ∧ py_float th = Raise e) →
  let temp := temperature (read_sensors rnd self) in
  update_system rnd self
  = (Raise e,
     set_state
       {| heating := if (temp <? t - 1.0)%float then true
                     else if (t + 0.5 <? temp)%float then false
                     else heating (state self);
          cooling := (t + 3.0 <? temp)%float;
          humidifier := humidifier (state self);
          fan_speed := fan_speed (state self);
          recuperator := recuperator (state self) |}
       (set_sensor_data (read_sensors rnd self) self)).
Proof.
  intros Ht Hft Hh. rewrite update_system_start. cbv zeta.
  erewrite bind_run by (apply (control_heating_run _ _ target t); assumption).
  erewrite bind_run by (apply (control_cooling_run _ _ target t); assumption).
  unfold bind at 1.
  unfold control_humidifier, bind, setting, lift, py_sub_float.
  cbn [settings set_state set_sensor_data].
  destruct Hh as [->|(th & -> & ->)]; reflexivity.
Qed.

Lemma update_system_partial_update_witness :
  let self := set_settings (PyDict {["target_temp" := PyFloat 22.0]})
                fresh_system in
  let rnd := {| uniform_temperature := 6.0; uniform_humidity := 0.0;
                randint_co2 := 0; uniform_airflow := 0.0 |} in
  let temp := temperature (read_sensors rnd self) in
  update_system rnd self
  = (Raise (KeyError "target_humidity"),
     set_state
       {| heating := if (temp <? 22.0 - 1.0)%float then true
                     else if (22.0 + 0.5 <? temp)%float then false
                     else heating (state self);
          cooling := (22.0 + 3.0 <? temp)%float;
          humidifier := humidifier (state self);
          fan_speed := fan_speed (state self);
          recuperator := recuperator (state self) |}
       (set_sensor_data (read_sensors rnd self) self)).
Proof.
  cbv zeta.
  apply (update_system_partial_update _ _ (PyFloat 22.0) 22.0%float);
    [reflexivity|reflexivity|left; reflexivity].
Defined.

(** The [or] of the fan rule: with the CO2 reading above the limit the
    fan goes to 100 without [min_airflow] being compared, so also when
    it is not a number; with the reading not above the limit, a
    [min_airflow] that is not a number raises [TypeError] and the speed
    stays. *)
Theorem control_fan_short_circuit self co2 airflow limit minflow nl :
  py_getitem (settings self) "co2_limit" = Return limit →
  py_getitem (settings self) "min_airflow" = Return minflow →
  as_number limit = Some nl →
  as_number minflow = None →
  control_fan co2 airflow self
  = if number_ltb nl co2
    then (Return tt, set_state (with_fan_speed 100 (state self)) self)
    else (Raise TypeError, self).
Proof.
  intros Hl Hm Hnl Hnm.
  unfold control_fan, bind, lift, py_gt, py_lt, ret.
  rewrite (setting_lookup _ _ _ Hl), (setting_lookup _ _ _ Hm), Hnl.
  destruct (number_ltb nl co2); [reflexivity|]. now rewrite Hnm.
Qed.

Lemma control_fan_short_circuit_witness :
  let self := set_settings
                (PyDict (<["min_airflow" := PyNone]> default_dict))
                fresh_system in
  control_fan (NInt 900) 40.0 self
  = if number_ltb (NInt 800) (NInt 900)
    then (Return tt, set_state (with_fan_speed 100 (state self)) self)
    else (Raise TypeError, self).
Proof.
  cbv zeta.
  apply (control_fan_short_circuit _ _ _ (PyInt 800) PyNone); reflexivity.
Defined.

Lemma settings_ok_inv v :
  settings_ok v = true →
  ∃ target t target_h th limit nl minflow nm enabled,
    py_getitem v "target_temp" = Return target ∧ py_float target = Return t
    ∧ py_getitem v "target_humidity" = Return target_h
    ∧ py_float target_h = Return th
    ∧ py_getitem v "co2_limit" = Return limit ∧ as_number limit = Some nl
    ∧ py_getitem v "min_airflow" = Return minflow ∧ as_number minflow = Some nm
    ∧ py_getitem v "recuperator_enabled" = Return enabled.
Proof.
  unfold settings_ok. intros Hok.
  destruct (py_getitem v "target_temp") as [target|]; [|discriminate].
  destruct (py_getitem v "target_humidity") as [target_h|]; [|discriminate].
  destruct (py_getitem v "co2_limit") as [limit|]; [|discriminate].
  destruct (py_getitem v "min_airflow") as [minflow|]; [|discriminate].
  destruct (py_getitem v "recuperator_enabled") as [enabled|]; [|discriminate].
  destruct (py_float target) as [t|] eqn:Hft; [|discriminate].
  destruct (py_float target_h) as [th|] eqn:Hfh; [|discriminate].
  destruct (as_number limit) as [nl|] eqn:Hnl; [|discriminate].
  destruct (as_number minflow) as [nm|] eqn:Hnm; [|discriminate].
  exists target, t, target_h, th, limit, nl, minflow, nm, enabled.
  repeat (split; [first [reflexivity|assumption]|]). reflexivity.
Qed.

Lemma update_system_run self rnd target t target_h th limit nl minflow nm enabled :
  py_getitem (settings self) "target_temp" = Return target →
  py_float target = Return t →
  py_getitem (settings self) "target_humidity" = Return target_h →
  py_float target_h = Return th →
  py_getitem (settings self) "co2_limit" = Return limit →
  as_number limit = Some nl →
  py_getitem (settings self) "min_airflow" = Return minflow →
  as_number minflow = Some nm →
  py_getitem (settings self) "recuperator_enabled" = Return enabled →
  let reading := read_sensors rnd self in
  update_system rnd self
  = (Return tt,
     set_state
       {| heating := if (temperature reading <? t - 1.0)%float then true
                     else if (t + 0.5 <? temperature reading)%float then false
                     else heating (state self);
          cooling := (t + 3.0 <? temperature reading)%float;
          humidifier := if (humidity reading <? th - 5.0)%float then true
                        else if (th + 3.0 <? humidity reading)%float then false
                        else humidifier (state self);
          fan_speed := if number_ltb nl (co2 reading)
                          || number_ltb (NFloat (airflow reading)) nm
                       then 100 else 50;
          recuperator := py_truthy enabled
                         && (5.0 <? temperature reading)%float |}
       (set_sensor_data reading self)).
Proof.
  intros Ht Hft Hh Hfh Hl Hnl Hm Hnm He. rewrite update_system_start. cbv zeta.
  erewrite bind_run by (apply (control_heating_run _ _ target t); assumption).
  erewrite bind_run by (apply (control_cooling_run _ _ target t); assumption).
  erewrite bind_run by (apply (control_humidifier_run _ _ target_h th); assumption).
  erewrite bind_run
    by (apply (control_fan_run _ _ _ limit minflow nl nm); assumption).
  rewrite (control_recuperator_run _ _ enabled) by assumption.
  reflexivity.
Qed.

(** The whole cycle in one step: with the five settings of the right
    types, a cycle returns, stores the reading, and sets the five
    actuators to the values the five rules give on that reading. *)
Theorem update_system_closed_form self rnd
    target t target_h th limit nl minflow nm enabled :
  py_getitem (settings self) "target_temp" = Return target →
  py_float target = Return t →
  py_getitem (settings self) "target_humidity" = Return target_h →
  py_float target_h = Return th →
  py_getitem (settings self) "co2_limit" = Return limit →
  as_number limit = Some nl →
  py_getitem (settings self) "min_airflow" = Return minflow →
  as_number minflow = Some nm →
  py_getitem (settings self) "recuperator_enabled" = Return enabled →
  let reading := read_sensors rnd self in
  update_system rnd self
  = (Return tt,
     set_state
       {| heating := if (temperature reading <? t - 1.0)%float then true
                     else if (t + 0.5 <? temperature reading)%float then false
                     else heating (state self);
          cooling := (t + 3.0 <? temperature reading)%float;
          humidifier := if (humidity reading <? th - 5.0)%float then true
                        else if (th + 3.0 <? humidity reading)%float then false
                        else humidifier (state self);
          fan_speed := if number_ltb nl (co2 reading)
                          || number_ltb (NFloat (airflow reading)) nm
                       then 100 else 50;
          recuperator := py_truthy enabled
                         && (5.0 <? temperature reading)%float |}
       (set_sensor_data reading self)).
Proof. apply update_system_run. Qed.

Lemma update_system_closed_form_witness :
  let rnd := {| uniform_temperature := -2.0; uniform_humidity := 5.0;
                randint_co2 := 300; uniform_airflow := -20.0 |} in
  let reading := read_sensors rnd fresh_system in
  update_system rnd fresh_system
  = (Return tt,
     set_state
       {| heating := if (temperature reading <? 22.0 - 1.0)%float then true
                     else if (22.0 + 0.5 <? temperature reading)%float then false
                     else heating (state fresh_system);
          cooling := (22.0 + 3.0 <? temperature reading)%float;
          humidifier := if (humidity reading <? 50.0 - 5.0)%float then true
                        else if (50.0 + 3.0 <? humidity reading)%float then false
                        else humidifier (state fresh_system);
          fan_speed := if number_ltb (NInt 800) (co2 reading)
                          || number_ltb (NFloat (airflow reading)) (NFloat 30.0)
                       then 100 else 50;
          recuperator := py_truthy (PyBool true)
                         && (5.0 <? temperature reading)%float |}
       (set_sensor_data reading fresh_system)).
Proof.
  cbv zeta.
  apply (update_system_closed_form fresh_system _ (PyFloat 22.0) 22.0%float
           (PyFloat 50.0) 50.0%float (PyInt 800) (NInt 800)
           (PyFloat 30.0) (NFloat 30.0) (PyBool true)); reflexivity.
Defined.

(** A reading that comes again changes nothing: with well-typed
    settings, a second cycle on the same draws returns the object the
    first one left. *)
Theorem update_system_idempotent self rnd :
  settings_ok (settings self) = true →
  update_system rnd (snd (update_system rnd self)) = update_system rnd self.
Proof.
  intros Hok.
  destruct (settings_ok_inv _ Hok)
    as (target & t & target_h & th & limit & nl & minflow & nm & enabled
        & Ht & Hft & Hh & Hfh & Hl & Hnl & Hm & Hnm & He).
  rewrite (update_system_run self rnd _ _ _ _ _ _ _ _ _
             Ht Hft Hh Hfh Hl Hnl Hm Hnm He).
  cbv zeta. cbn [snd].
  set (reading := read_sensors rnd self).
  set (self1 := set_state _ _).
  assert (read_sensors rnd self1 = reading) as Hr by reflexivity.
  rewrite (update_system_run self1 rnd _ _ _ _ _ _ _ _ _
             Ht Hft Hh Hfh Hl Hnl Hm Hnm He).
  cbv zeta. rewrite Hr. unfold self1.
  cbn [state set_state heating humidifier set_sensor_data settings sensor_data
       running simulate_sensors].
  destruct (temperature reading <? t - 1.0)%float,
           (t + 0.5 <? temperature reading)%float,
           (humidity reading <? th - 5.0)%float,
           (th + 3.0 <? humidity reading)%float; reflexivity.
Qed.

Lemma update_system_idempotent_witness :
  let rnd := {| uniform_temperature := 1.5; uniform_humidity := 0.0;
                randint_co2 := 0; uniform_airflow := 0.0 |} in
  update_system rnd (snd (update_system rnd fresh_system))
  = update_system rnd fresh_system.
Proof.
  cbv zeta. apply update_system_idempotent. reflexivity.
Defined.

Lemma safe_state_with_fan_speed n st :
  n = fan_speed st ∨ n = 50%Z ∨ n = 100%Z →
  safe_state st = true → safe_state (with_fan_speed n st) = true.
Proof.
  unfold safe_state. intros Hn H. apply andb_true_iff in H as [H1 H2].
  apply andb_true_iff. split; [exact H1|].
  destruct Hn as [->|[->| ->]]; [exact H2|reflexivity|].
  cbn [fan_speed with_fan_speed]. now rewrite orb_true_r.
Qed.

Lemma rest_of_cycle_safe self hum co2 airflow temp :
  safe_state (state self) = true →
  safe_state
    (state (snd ((control_humidifier hum;;
                  control_fan co2 airflow;;
                  control_recuperator temp) self))) = true.
Proof.
  intros Hsafe.
  destruct (rules_write_one_field self temp hum co2 airflow)
    as (_ & _ & (b3 & E3) & _).
  rewrite bind_snd.
  destruct (control_humidifier hum self) as [[[]|e] s4]; simpl in E3; subst s4;
    [|exact Hsafe].
  set (s4 := set_state _ self).
  assert (safe_state (state s4) = true) as H4 by exact Hsafe.
  clearbody s4.
  destruct (rules_write_one_field s4 temp hum co2 airflow)
    as (_ & _ & _ & (n & Hn & E4) & _).
  assert (safe_state (state (set_state (with_fan_speed n (state s4)) s4)) = true)
    as H5 by now apply safe_state_with_fan_speed.
  rewrite bind_snd.
  destruct (control_fan co2 airflow s4) as [[[]|e] s5]; simpl in E4; subst s5;
    [|exact H5].
  set (s5 := set_state _ s4) in *. clearbody s5.
  destruct (rules_write_one_field s5 temp hum co2 airflow)
    as (_ & _ & _ & _ & (b5 & E5)).
  rewrite E5. exact H5.
Qed.

Lemma update_system_safety self rnd :
  safe_state (state self) = true →
  safe_state (state (snd (update_system rnd self))) = true.
Proof.
  intros Hsafe. rewrite update_system_start. cbv zeta.
  set (reading := read_sensors rnd self).
  set (s1 := set_sensor_data reading self).
  assert (safe_state (state s1) = true) as H1 by exact Hsafe.
  assert (∀ e, control_heating (temperature reading) s1 = (Raise e, s1) →
          safe_state
            (state (snd ((control_heating (temperature reading);;
                          control_cooling (temperature reading);;
                          control_humidifier (humidity reading);;
                          control_fan (co2 reading) (airflow reading);;
                          control_recuperator (temperature reading)) s1))) = true)
    as Hfail.
  { intros e E. rewrite bind_snd, E. exact H1. }
  destruct (py_getitem (settings self) "target_temp") as [target|e] eqn:Ht.
  2:{ apply (Hfail e), control_heating_raises. now left. }
  destruct (py_float target) as [t|e] eqn:Hft.
  2:{ apply (Hfail e), control_heating_raises. right. now exists target. }
  rewrite bind_snd, (control_heating_run s1 _ target t Ht Hft).
  rewrite bind_snd, (control_cooling_run (set_state _ s1) _ target t Ht Hft).
  apply rest_of_cycle_safe.
  cbn [state set_state]. unfold safe_state in *.
  apply andb_true_iff in Hsafe as [_ Hfan].
  apply andb_true_iff. split; [|exact Hfan].
  cbn [heating cooling with_heating with_cooling].
  destruct (t + 3.0 <? temperature reading)%float eqn:Hcool;
    [|now rewrite andb_false_r].
  apply cooling_threshold_above in Hcool as [Hoff Hnot_on].
  now rewrite Hnot_on, Hoff.
Qed.

(** Whatever the settings and the reading, and whether the cycle returns
    or raises: from a state where heater and cooler are not both on and
    the fan is at 0, 50 or 100, a cycle leads to such a state. *)
Theorem update_system_keeps_safe self rnd :
  safe_state (state self) = true →
  safe_state (state (snd (update_system rnd self))) = true.
Proof. apply update_system_safety. Qed.

Lemma update_system_keeps_safe_witness :
  safe_state
    (state (snd (update_system
                   {| uniform_temperature := 6.0; uniform_humidity := 0.0;
                      randint_co2 := 0; uniform_airflow := 0.0 |}
                   fresh_system))) = true.
Proof. apply update_system_keeps_safe. reflexivity. Defined.

(** ** The simulated sensors *)

Lemma read_sensors_bounds self rnd :
  simulate_sensors self = true →
  draws_in_range rnd = true →
  let reading := read_sensors rnd self in
  ((18.0 <=? temperature reading)%float = true
   ∧ (temperature reading <=? 25.0)%float = true)
  ∧ ((35.0 <=? humidity reading)%float = true
     ∧ (humidity reading <=? 55.0)%float = true)
  ∧ (∃ n, co2 reading = NInt n ∧ (500 ≤ n ≤ 900)%Z)
  ∧ ((35.0 <=? airflow reading)%float = true
     ∧ (airflow reading <=? 50.0)%float = true).
Proof.
  intros Hsim Hrange. cbv zeta. unfold read_sensors. rewrite Hsim.
  cbn [temperature humidity co2 airflow].
  unfold draws_in_range in Hrange.
  repeat (apply andb_true_iff in Hrange as [Hrange ?]).
  split; [|split; [|split]].
  - apply (add_between 20.0 (-2.0) 5.0); try reflexivity; assumption.
  - apply (add_between 45.0 (-10.0) 10.0); try reflexivity; assumption.
  - eexists. split; [reflexivity|]. lia.
  - apply (add_between 40.0 (-5.0) 10.0); try reflexivity; assumption.
Qed.

(** In simulation every reading is in range: the temperature from 18 to
    25, the humidity from 35 to 55, the CO2 level an int from 500 to 900
    and the airflow from 35 to 50. *)
Theorem read_sensors_simulated_in_range self rnd :
  simulate_sensors self = true →
  draws_in_range rnd = true →
  let reading := read_sensors rnd self in
  ((18.0 <=? temperature reading)%float = true
   ∧ (temperature reading <=? 25.0)%float = true)
  ∧ ((35.0 <=? humidity reading)%float = true
     ∧ (humidity reading <=? 55.0)%float = true)
  ∧ (∃ n, co2 reading = NInt n ∧ (500 ≤ n ≤ 900)%Z)
  ∧ ((35.0 <=? airflow reading)%float = true
     ∧ (airflow reading <=? 50.0)%float = true).
Proof. apply read_sensors_bounds. Qed.

Lemma read_sensors_simulated_in_range_witness :
  let reading := read_sensors
                   {| uniform_temperature := 4.5; uniform_humidity := -3.0;
                      randint_co2 := 120; uniform_airflow := 0.5 |}
                   fresh_system in
  ((18.0 <=? temperature reading)%float = true
   ∧ (temperature reading <=? 25.0)%float = true)
  ∧ ((35.0 <=? humidity reading)%float = true
     ∧ (humidity reading <=? 55.0)%float = true)
  ∧ (∃ n, co2 reading = NInt n ∧ (500 ≤ n ≤ 900)%Z)
  ∧ ((35.0 <=? airflow reading)%float = true
     ∧ (airflow reading <=? 50.0)%float = true).
Proof.
  cbv zeta. apply read_sensors_simulated_in_range; reflexivity.
Defined.

(** With the default settings the simulated sensors never start the
    cooler and never stop the recuperator: every cycle returns with
    [cooling] off, since no simulated temperature is above 25, and with
    [recuperator] on, since every one is above 5. *)
Theorem simulation_never_cools self rnd :
  settings self = default_settings →
  simulate_sensors self = true →
  draws_in_range rnd = true →
  fst (update_system rnd self) = Return tt
  ∧ cooling (state (snd (update_system rnd self))) = false
  ∧ recuperator (state (snd (update_system rnd self))) = true.
Proof.
  intros Hset Hsim Hrange.
  destruct (read_sensors_bounds self rnd Hsim Hrange) as ((Hlo & Hhi) & _).
  assert (∀ k v, py_getitem default_settings k = Return v →
                 py_getitem (settings self) k = Return v) as Hk
    by (intros k v; now rewrite Hset).
  rewrite (update_system_run self rnd (PyFloat 22.0) 22.0%float
             (PyFloat 50.0) 50.0%float (PyInt 800) (NInt 800)
             (PyFloat 30.0) (NFloat 30.0) (PyBool true));
    try reflexivity; try (apply Hk; reflexivity).
  cbv zeta. cbn [fst snd state set_state cooling recuperator].
  split; [reflexivity|]. split.
  - now apply (leb_not_ltb _ 25.0%float).
  - cbn [py_truthy andb].
    now apply (ltb_leb_trans 5.0 18.0 _).
Qed.

Lemma simulation_never_cools_witness :
  let rnd := {| uniform_temperature := 5.0; uniform_humidity := 0.0;
                randint_co2 := 0; uniform_airflow := 0.0 |} in
  fst (update_system rnd fresh_system) = Return tt
  ∧ cooling (state (snd (update_system rnd fresh_system))) = false
  ∧ recuperator (state (snd (update_system rnd fresh_system))) = true.
Proof.
  cbv zeta. apply simulation_never_cools; reflexivity.
Defined.

(** ** More on the settings request *)

Lemma update_settings_dict {text} (json_dumps : pyval → text)
    (data d : gmap string pyval) self w :
  settings self = PyDict d →
  update_settings json_dumps data self w
  = (Return ok_response,
     set_settings (PyDict (data ∪ d)) self,
     {| settings_json := Some (json_dumps (PyDict (data ∪ d))) |}).
Proof. intros Hd. unfold update_settings, dict_update. now rewrite Hd. Qed.

(** Sending the same patch again changes nothing: the second request
    answers ok and leaves the object and the file as the first one left
    them. *)
Theorem update_settings_twice {text} (json_dumps : pyval → text)
    (data d : gmap string pyval) self w :
  settings self = PyDict d →
  let out := update_settings json_dumps data self w in
  update_settings json_dumps data (snd (fst out)) (snd out) = out.
Proof.
  intros Hd. cbv zeta. rewrite (update_settings_dict _ data d self w Hd).
  cbn [fst snd].
  rewrite (update_settings_dict _ data (data ∪ d)) by reflexivity.
  rewrite (assoc_L (∪)), (idemp_L (∪) data). reflexivity.
Qed.

Lemma update_settings_twice_witness :
  let out := update_settings document_dumps {["co2_limit" := PyInt 1000]}
               fresh_system {| settings_json := None |} in
  update_settings document_dumps {["co2_limit" := PyInt 1000]}
    (snd (fst out)) (snd out) = out.
Proof.
  cbv zeta. apply (update_settings_twice document_dumps _ default_dict).
  reflexivity.
Defined.

(** Two patches in a row are one patch: the second over the first, so
    that on a key both name the later value stays. *)
Theorem update_settings_compose {text} (json_dumps : pyval → text)
    (data1 data2 d : gmap string pyval) self w :
  settings self = PyDict d →
  let out := update_settings json_dumps data1 self w in
  update_settings json_dumps data2 (snd (fst out)) (snd out)
  = update_settings json_dumps (data2 ∪ data1) self w.
Proof.
  intros Hd. cbv zeta. rewrite (update_settings_dict _ data1 d self w Hd).
  cbn [fst snd].
  rewrite (update_settings_dict _ data2 (data1 ∪ d)) by reflexivity.
  rewrite (update_settings_dict _ (data2 ∪ data1) d self w Hd).
  rewrite (assoc_L (∪)). reflexivity.
Qed.

Lemma update_settings_compose_witness :
  let out := update_settings document_dumps {["co2_limit" := PyInt 1000]}
               fresh_system {| settings_json := None |} in
  update_settings document_dumps {["co2_limit" := PyInt 900]}
    (snd (fst out)) (snd out)
  = update_settings document_dumps
      ({["co2_limit" := PyInt 900]} ∪ {["co2_limit" := PyInt 1000]})
      fresh_system {| settings_json := None |}.
Proof.
  cbv zeta. apply (update_settings_compose document_dumps _ _ default_dict).
  reflexivity.
Defined.

(** A patch is in force after a restart: when [json.load] reads back
    what [json.dump] wrote, constructing the object anew after a request
    gives the patched settings, unknown keys included, with everything
    off. *)
Theorem patch_survives_restart {text} (json_dumps : pyval → text)
    (json_loads : text → option pyval) (data d : gmap string pyval) self w :
  (∀ v, json_loads (json_dumps v) = Some v) →
  settings self = PyDict d →
  init json_loads (snd (update_settings json_dumps data self w))
  = Return (started_with (PyDict (data ∪ d))).
Proof.
  intros Hrt Hd. rewrite (update_settings_dict _ data d self w Hd).
  unfold init, load_settings. cbn [snd settings_json]. now rewrite Hrt.
Qed.

Lemma patch_survives_restart_witness :
  init document_loads
    (snd (update_settings document_dumps {["mode" := PyStr "turbo"]}
            fresh_system {| settings_json := None |}))
  = Return (started_with (PyDict ({["mode" := PyStr "turbo"]} ∪ default_dict))).
Proof.
  apply (patch_survives_restart document_dumps document_loads).
  - intros v. reflexivity.
  - reflexivity.
Defined.

(** The status document after a patch: its [settings] group holds every
    key of the patch with the patch's value, and its [state] group is the
    actuator state, which the request has not touched. *)
Theorem get_status_after_patch {text} (json_dumps : pyval → text)
    (data d : gmap string pyval) self w k v :
  settings self = PyDict d →
  data !! k = Some v →
  let self' := snd (fst (update_settings json_dumps data self w)) in
  (∃ group, py_getitem (get_status self') "settings" = Return group
            ∧ py_getitem group k = Return v)
  ∧ py_getitem (get_status self') "state"
    = Return (PyDict (SystemState_dict (state self))).
Proof.
  intros Hd Hk. cbv zeta. rewrite (update_settings_dict _ data d self w Hd).
  cbn [fst snd]. split.
  - exists (PyDict (data ∪ d)). split; [reflexivity|].
    unfold py_getitem. now rewrite (lookup_union_Some_l _ _ _ _ Hk).
  - reflexivity.
Qed.

Lemma get_status_after_patch_witness :
  let self' := snd (fst (update_settings document_dumps
                           {["co2_limit" := PyInt 1000]}
                           fresh_system {| settings_json := None |})) in
  (∃ group, py_getitem (get_status self') "settings" = Return group
            ∧ py_getitem group "co2_limit" = Return (PyInt 1000))
  ∧ py_getitem (get_status self') "state"
    = Return (PyDict (SystemState_dict (state fresh_system))).
Proof.
  cbv zeta.
  apply (get_status_after_patch document_dumps _ default_dict); reflexivity.
Defined.

(** ** More on the main loop *)

Lemma py_float_error v e :
  py_float v = Raise e → e = TypeError ∨ e = OverflowError.
Proof.
  unfold py_float, float_of_Z.
  destruct (as_number v) as [[z|f]|]; [|discriminate|intros [= <-]; now left].
  destruct (binary_normalize prec emax z 0 false); try discriminate.
  intros [= <-]. now right.
Qed.

Lemma update_system_returns self rnd :
  settings_ok (settings self) = true →
  ∃ self',
    update_system rnd self = (Return tt, self')
    ∧ settings self' = settings self ∧ running self' = running self.
Proof.
  intros Hok.
  destruct (settings_ok_inv _ Hok)
    as (target & t & target_h & th & limit & nl & minflow & nm & enabled
        & Ht & Hft & Hh & Hfh & Hl & Hnl & Hm & Hnm & He).
  eexists. split.
  - exact (update_system_run self rnd _ _ _ _ _ _ _ _ _
             Ht Hft Hh Hfh Hl Hnl Hm Hnm He).
  - now split.
Qed.

Lemma loop_only_iterations {text} (json_dumps : pyval → text) script :
  only_iterations script = true →
  ∀ self w,
    settings_ok (settings self) = true → running self = true →
    ∃ self',
      loop json_dumps script self w = (None, self', w)
      ∧ settings self' = settings self ∧ running self' = true.
Proof.
  induction script as [|ev script IH]; intros Hit self w Hok Hrun.
  - simpl. rewrite Hrun. now exists self.
  - simpl in Hit. destruct ev as [rnd| |data]; try discriminate.
    simpl. rewrite Hrun.
    destruct (update_system_returns self rnd Hok) as (self1 & -> & Hs & Hr).
    destruct (IH Hit self1 w) as (self' & E & Hs' & Hr');
      [now rewrite Hs|now rewrite Hr|].
    exists self'. rewrite E. repeat split; congruence.
Qed.

(** The loop does not stop by itself: on well-typed settings, a script
    of iterations, however long, leaves [run] in its loop, with the
    settings and the file as they were. *)
Theorem run_keeps_running {text} (json_dumps : pyval → text) script self w :
  only_iterations script = true →
  settings_ok (settings self) = true →
  running self = true →
  ∃ self',
    run json_dumps script self w = (None, self', w)
    ∧ settings self' = settings self.
Proof.
  intros Hit Hok Hrun.
  destruct (loop_only_iterations json_dumps script Hit self w Hok Hrun)
    as (self' & E & Hs & _).
  exists self'. unfold run. rewrite E. now split.
Qed.

Lemma run_keeps_running_witness :
  ∃ self',
    run document_dumps
      [Iteration {| uniform_temperature := 1.0; uniform_humidity := 0.0;
                    randint_co2 := 0; uniform_airflow := 0.0 |};
       Iteration {| uniform_temperature := 4.0; uniform_humidity := 9.0;
                    randint_co2 := 250; uniform_airflow := -5.0 |}]
      fresh_system {| settings_json := None |}
    = (None, self', {| settings_json := None |})
    ∧ settings self' = settings fresh_system.
Proof. apply run_keeps_running; reflexivity. Defined.

(** A clean stop: on well-typed settings, after any number of
    iterations an interrupt makes [run] return normally, with everything
    off and the settings and the file as they were; what the script holds
    after the interrupt plays no part. *)
Theorem run_clean_stop {text} (json_dumps : pyval → text)
    iterations rest self w :
  only_iterations iterations = true →
  settings_ok (settings self) = true →
  running self = true →
  ∃ self',
    run json_dumps (iterations ++ Interrupt :: rest) self w
    = (Some (Return tt), self', w)
    ∧ state self' = SystemState_default
    ∧ settings self' = settings self.
Proof.
  intros Hit Hok Hrun.
  assert (∀ script self,
            only_iterations script = true →
            settings_ok (settings self) = true → running self = true →
            ∃ self',
              loop json_dumps (script ++ Interrupt :: rest) self w
              = (Some (Raise KeyboardInterrupt), self', w)
              ∧ settings self' = settings self) as Hloop.
  { clear. induction script as [|ev script IH]; intros self Hit Hok Hrun.
    - simpl. rewrite Hrun. now exists self.
    - simpl in Hit. destruct ev as [rnd| |data]; try discriminate.
      simpl. rewrite Hrun.
      destruct (update_system_returns self rnd Hok) as (self1 & -> & Hs & Hr).
      destruct (IH self1 Hit) as (self' & E & Hs');
        [now rewrite Hs|now rewrite Hr, Hrun|].
      exists self'. rewrite E. split; congruence. }
  destruct (Hloop iterations self Hit Hok Hrun) as (self' & E & Hs).
  eexists. unfold run. rewrite E. split; [reflexivity|]. now split.
Qed.

Lemma run_clean_stop_witness :
  ∃ self',
    run document_dumps
      ([Iteration {| uniform_temperature := 1.0; uniform_humidity := 0.0;
                     randint_co2 := 0; uniform_airflow := 0.0 |}]
       ++ Interrupt :: [Post {["co2_limit" := PyInt 1000]}])
      fresh_system {| settings_json := None |}
    = (Some (Return tt), self', {| settings_json := None |})
    ∧ state self' = SystemState_default
    ∧ settings self' = settings fresh_system.
Proof. apply run_clean_stop; reflexivity. Defined.

Lemma loop_no_post {text} (json_dumps : pyval → text) script :
  no_post script = true →
  ∀ self w,
    snd (loop json_dumps script self w) = w
    ∧ settings (snd (fst (loop json_dumps script self w))) = settings self.
Proof.
  induction script as [|ev script IH]; intros Hnp self w; simpl;
    destruct (running self); try (now split).
  simpl in Hnp. destruct ev as [rnd| |data]; try discriminate; [|now split].
  pose proof (update_system_frame self rnd) as (Hs & _).
  destruct (update_system rnd self) as [[[]|e] self1]; simpl in Hs; [|now split].
  destruct (IH Hnp self1 w) as [Hw Hs']. split; congruence.
Qed.

(** Only a settings request writes the settings: in a script without
    one, [run] leaves the settings file and the settings in memory as
    they were, however it ends; the shutdown writes nothing. *)
Theorem run_writes_nothing {text} (json_dumps : pyval → text) script self w :
  no_post script = true →
  snd (run json_dumps script self w) = w
  ∧ settings (snd (fst (run json_dumps script self w))) = settings self.
Proof.
  intros Hnp. destruct (loop_no_post json_dumps script Hnp self w) as [Hw Hs].
  unfold run.
  destruct (loop json_dumps script self w) as [[[r|] self'] w'];
    simpl in *; now split.
Qed.

Lemma run_writes_nothing_witness :
  let script :=
    [Iteration {| uniform_temperature := 6.0; uniform_humidity := 0.0;
                  randint_co2 := 0; uniform_airflow := 0.0 |};
     Interrupt] in
  snd (run document_dumps script fresh_system {| settings_json := None |})
  = {| settings_json := None |}
  ∧ settings (snd (fst (run document_dumps script fresh_system
                          {| settings_json := None |})))
    = settings fresh_system.
Proof. cbv zeta. apply run_writes_nothing. reflexivity. Defined.









(** No request is validated: a patch whose [target_temp] is not a number
    is accepted and written to the file, and the next cycle ends the
    loop: [run] re-raises the error of the heating rule after switching
    everything off. *)
Theorem malformed_patch_stops_the_loop {text} (json_dumps : pyval → text)
    (data d : gmap string pyval) v e rnd script self w :
  settings self = PyDict d →
  running self = true →
  data !! "target_temp" = Some v →
  py_float v = Raise e →
  run json_dumps (Post data :: Iteration rnd :: script) self w
  = (Some (Raise e),
     set_state SystemState_default
       (set_sensor_data
          (read_sensors rnd (set_settings (PyDict (data ∪ d)) self))
          (set_settings (PyDict (data ∪ d)) self)),
     {| settings_json := Some (json_dumps (PyDict (data ∪ d))) |}).
Proof.
  intros Hd Hrun Hk Hfl. unfold run. cbn [loop]. rewrite Hrun.
  rewrite (update_settings_dict _ data d self w Hd).
  cbn [running set_settings]. rewrite Hrun.
  rewrite (update_system_bad_target_temp_raise _ rnd e).
  2:{ right. exists v. split; [|exact Hfl].
      change (py_getitem (PyDict (data ∪ d)) "target_temp" = Return v).
      unfold py_getitem. now rewrite (lookup_union_Some_l _ _ _ _ Hk). }
  destruct (py_float_error v e Hfl) as [-> | ->]; reflexivity.
Qed.

Lemma malformed_patch_stops_the_loop_witness :
  let data : gmap string pyval := {["target_temp" := PyStr "warm"]} in
  let rnd := {| uniform_temperature := 1.0; uniform_humidity := 0.0;
                randint_co2 := 0; uniform_airflow := 0.0 |} in
  run document_dumps [Post data; Iteration rnd; Interrupt]
    fresh_system {| settings_json := None |}
  = (Some (Raise TypeError),
     set_state SystemState_default
       (set_sensor_data
          (read_sensors rnd
             (set_settings (PyDict (data ∪ default_dict)) fresh_system))
          (set_settings (PyDict (data ∪ default_dict)) fresh_system)),
     {| settings_json :=
          Some (document_dumps (PyDict (data ∪ default_dict))) |}).
Proof.
  cbv zeta.
  apply (malformed_patch_stops_the_loop document_dumps _ default_dict
           (PyStr "warm")); reflexivity.
Defined.

(** And it stays: when [json.load] reads back what [json.dump] wrote, the
    object constructed anew after such a patch has the malformed
    settings, and its first cycle raises the same error. *)
Theorem malformed_patch_survives_restart {text} (json_dumps : pyval → text)
    (json_loads : text → option pyval)
    (data d : gmap string pyval) v e rnd self w :
  (∀ x, json_loads (json_dumps x) = Some x) →
  settings self = PyDict d →
  data !! "target_temp" = Some v →
  py_float v = Raise e →
  ∃ self',
    init json_loads (snd (update_settings json_dumps data self w))
    = Return self'
    ∧ fst (update_system rnd self') = Raise e.
Proof.
  intros Hrt Hd Hk Hfl. eexists. split.
  - rewrite (update_settings_dict _ data d self w Hd).
    unfold init, load_settings. cbn [snd settings_json]. now rewrite Hrt.
  - rewrite (update_system_bad_target_temp_raise _ rnd e); [reflexivity|].
    right. exists v. split; [|exact Hfl].
    change (py_getitem (PyDict (data ∪ d)) "target_temp" = Return v).
    unfold py_getitem. now rewrite (lookup_union_Some_l _ _ _ _ Hk).
Qed.

Lemma malformed_patch_survives_restart_witness :
  ∃ self',
    init document_loads
      (snd (update_settings document_dumps {["target_temp" := PyNone]}
              fresh_system {| settings_json := None |}))
    = Return self'
    ∧ fst (update_system
             {| uniform_temperature := 1.0; uniform_humidity := 0.0;
                randint_co2 := 0; uniform_airflow := 0.0 |} self')
      = Raise TypeError.
Proof.
  apply (malformed_patch_survives_restart document_dumps document_loads
           {["target_temp" := PyNone]} default_dict PyNone).
  - intros x. reflexivity.
  - reflexivity.
  - reflexivity.
  - reflexivity.
Defined.
